(** * usdt-p2p-moniter: quote ingestion, rolling history and windowed export

    A shallow embedding of [binance_api.py] and [data_processor.py].

    - Python values that travel through JSON are the inductive [json];
      a JSON object is an association list in document order.
    - Python [float] is IEEE 754 binary64, here Rocq's primitive [float].
    - An exception is a constructor of [exn]; code that may raise returns
      [result].
    - The marketplace and the wall clock are an oracle [world], read through
      an event counter that every outbound request and clock read advances.
    - The history file is a [file_state]; a write carries the fault (if any)
      that hits it.
    - A local name of a function body is [Bound] or [Unbound]; reading an
      unbound one raises. *)

From Stdlib Require Import ZArith Floats String Ascii List Lia Bool.
From stdpp Require Import base option list gmap strings pretty.

Set Warnings "-register-all".

Open Scope Z_scope.
Open Scope string_scope.
Open Scope list_scope.

(** ** Values *)

Inductive json : Type :=
| JNull
| JBool (b : bool)
| JInt (z : Z)
| JFloat (f : float)
| JStr (s : string)
| JList (l : list json)
| JDict (d : list (string * json)).

(** A Python [dict] with string keys, as the JSON document spells it. *)
Definition dict : Type := list (string * json).

(** The exception classes the two modules can meet. [HTTPError],
    [ConnectionError] and [InvalidJSONError] are the subclasses of
    [requests.RequestException] raised by [raise_for_status], by [post] and by
    [Response.json] (requests 2.27 and later, where a body that does not
    decode raises a [RequestException]). All of them derive from
    [Exception]. *)
Inductive exn : Type :=
| HTTPError (status : Z)
| ConnectionError
| InvalidJSONError
| TypeError
| AttributeError
| ValueError
| KeyError (key : string)
| OverflowError
| OSError
| JSONDecodeError
| UnboundLocalError
| PlainException.   (* [raise Exception(...)] *)

Definition is_RequestException (e : exn) : bool :=
  match e with
  | HTTPError _ | ConnectionError | InvalidJSONError => true
  | _ => false
  end.

Inductive result (A : Type) : Type :=
| Ok (a : A)
| Raise (e : exn).
Arguments Ok {A} a.
Arguments Raise {A} e.

Definition is_ok {A} (r : result A) : bool :=
  match r with Ok _ => true | Raise _ => false end.

#[global] Instance result_ret : MRet result := fun _ a => Ok a.
#[global] Instance result_bind : MBind result := fun _ _ k m =>
  match m with
  | Ok a => k a
  | Raise e => Raise e
  end.

(** [for x in xs: acc = body(acc, x)], leaving at the first exception. *)
Fixpoint for_each {A B} (body : B -> A -> result B) (xs : list A) (acc : B)
  : result B :=
  match xs with
  | [] => Ok acc
  | x :: xs' => acc' ← body acc x; for_each body xs' acc'
  end.

(** ** Dictionary access *)

(** [d.get(key)]: the value, if the key is there. *)
Fixpoint dict_lookup (d : dict) (key : string) : option json :=
  match d with
  | [] => None
  | (k, v) :: d' => if String.eqb k key then Some v else dict_lookup d' key
  end.

(** [d.get(key, default)]. *)
Definition dict_get (d : dict) (key : string) (default : json) : json :=
  match dict_lookup d key with
  | Some v => v
  | None => default
  end.

(** [key in d]. *)
Definition dict_has (d : dict) (key : string) : bool :=
  match dict_lookup d key with
  | Some _ => true
  | None => false
  end.

(** [d[key]]. *)
Definition dict_item (d : dict) (key : string) : result json :=
  match dict_lookup d key with
  | Some v => Ok v
  | None => Raise (KeyError key)
  end.

(** [x.get(key, default)] on an arbitrary value: only a dict has [get]. *)
Definition py_get (x : json) (key : string) (default : json) : result json :=
  match x with
  | JDict d => Ok (dict_get d key default)
  | _ => Raise AttributeError
  end.

(** [for x in v]: what a loop over [v] walks through. A list gives its
    elements, a dict its keys, a string its characters (one [ascii] each). *)
Definition py_iter (x : json) : result (list json) :=
  match x with
  | JList l => Ok l
  | JDict d => Ok (map (fun kv => JStr (fst kv)) d)
  | JStr s => Ok (map (fun c => JStr (String c EmptyString)) (list_ascii_of_string s))
  | _ => Raise TypeError
  end.

(** ** Numbers *)

(** The binary64 nearest to an integer (round half to even). *)
Definition float_of_Z (z : Z) : float :=
  SF2Prim (binary_normalize prec emax z 0 false).

(** [float(n)] for an [int]: too large an integer raises. *)
Definition float_of_int (z : Z) : result float :=
  let f := float_of_Z z in
  if PrimFloat.is_infinity f then Raise OverflowError else Ok f.

(** [a - b] on the numbers the aggregator produces. *)
Definition py_sub (a b : json) : result json :=
  match a, b with
  | JInt x, JInt y => Ok (JInt (x - y))
  | JFloat x, JFloat y => Ok (JFloat (PrimFloat.sub x y))
  | JFloat x, JInt y => y' ← float_of_int y; Ok (JFloat (PrimFloat.sub x y'))
  | JInt x, JFloat y => x' ← float_of_int x; Ok (JFloat (PrimFloat.sub x' y))
  | _, _ => Raise TypeError
  end.

Section BinanceApi.

(** Python's [float(s)] on a [str]: [None] stands for [ValueError]. *)
Variable float_of_string : string -> option float.

(** [float(x)]. *)
Definition py_float (x : json) : result float :=
  match x with
  | JFloat f => Ok f
  | JInt z => float_of_int z
  | JBool b => Ok (if b then 1%float else 0%float)
  | JStr s =>
      match float_of_string s with
      | Some f => Ok f
      | None => Raise ValueError
      end
  | JNull | JList _ | JDict _ => Raise TypeError
  end.

(** *** filter_offers *)

(** [advertiser.get("userType") == "merchant"]. *)
Definition is_merchant_value (v : json) : bool :=
  match v with
  | JStr s => String.eqb s "merchant"
  | _ => false
  end.

(** One turn of the loop of [filter_offers]: the verdict on [offer]. *)
Definition offer_passes (offer : json) : result bool :=
  advertiser ← py_get offer "advertiser" (JDict []);
  adv_details ← py_get offer "adv" (JDict []);
  user_type ← py_get advertiser "userType" JNull;
  let is_merchant := is_merchant_value user_type in
  quantity ← py_get adv_details "tradableQuantity" (JInt 0);
  tradable_quantity ← py_float quantity;
  Ok (is_merchant || PrimFloat.ltb 1000%float tradable_quantity).

(** The body of the loop: [filtered_offers] after [offer]. *)
Definition filter_step (filtered_offers : list json) (offer : json)
  : result (list json) :=
  keep ← offer_passes offer;
  Ok (if keep : bool then filtered_offers ++ [offer] else filtered_offers).

Definition filter_offers (offers : list json) : result (list json) :=
  for_each filter_step offers [].

(** *** calculate_average_price *)

(** [float(offer.get("adv", {}).get("price", 0))]. *)
Definition offer_price (offer : json) : result float :=
  adv_details ← py_get offer "adv" (JDict []);
  price ← py_get adv_details "price" (JInt 0);
  py_float price.

(** [total_price] starts as the [int] 0; adding a float to it makes it one. *)
Definition add_price (total_price : json) (price : float) : result json :=
  match total_price with
  | JInt z => z' ← float_of_int z; Ok (JFloat (PrimFloat.add z' price))
  | JFloat t => Ok (JFloat (PrimFloat.add t price))
  | _ => Raise TypeError
  end.

(** [total / n] with [n] an [int]. *)
Definition py_truediv_int (total : json) (n : Z) : result json :=
  match total with
  | JFloat t => n' ← float_of_int n; Ok (JFloat (PrimFloat.div t n'))
  | _ => Raise TypeError
  end.

(** The body of the loop: [total_price] after [offer]. *)
Definition price_step (total_price : json) (offer : json) : result json :=
  price ← offer_price offer;
  add_price total_price price.

Definition calculate_average_price (offers : list json) : result json :=
  match offers with
  | [] => Ok (JInt 0)
  | _ =>
      total_price ← for_each price_step offers (JInt 0);
      py_truediv_int total_price (Z.of_nat (length offers))
  end.

(** *** The marketplace and the clock *)

(** The JSON payload of the search request. *)
Record payload : Type := {
  p_asset : string;
  p_fiat : string;
  p_merchantCheck : bool;
  p_page : Z;
  p_rows : Z;
  p_tradeType : string
}.

(** What [requests.post] does: it raises (no connection, timeout, ...), or a
    response comes back with a status and a body; [body = None] is a body
    that [Response.json] cannot decode. *)
Inductive http_outcome : Type :=
| PostRaises
| Response (status : Z) (body : option json).

(** The environment: the outcome of the request issued as event [n], and
    [datetime.now().strftime("%Y-%m-%d %H:%M:%S")] read as event [n]. *)
Record world : Type := {
  http : nat -> payload -> http_outcome;
  clock : nat -> string
}.

(** A computation that reads the environment: the event counter goes in and
    comes out, with a value or an exception. *)
Definition io (A : Type) : Type := nat -> result A * nat.

Definition io_ret {A} (a : A) : io A := fun n => (Ok a, n).

Definition io_bind {A B} (m : io A) (k : A -> io B) : io B := fun n =>
  match m n with
  | (Ok a, n') => k a n'
  | (Raise e, n') => (Raise e, n')
  end.

(** A pure step inside an [io] computation. *)
Definition lift {A} (r : result A) : io A := fun n => (r, n).

(** [try: m  except Exception: handler]. Every constructor of [exn] is an
    [Exception]. *)
Definition try_except {A} (m : io A) (handler : exn -> io A) : io A := fun n =>
  match m n with
  | (Ok a, n') => (Ok a, n')
  | (Raise e, n') => handler e n'
  end.

Notation "'let!' x ':=' m 'in' k" := (io_bind m (fun x => k))
  (at level 10, x name, m at level 100, k at level 200, only parsing).

Definition now_string (w : world) : io string := fun n => (Ok (clock w n), S n).

Definition post (w : world) (json_payload : payload) : io http_outcome :=
  fun n => (Ok (http w n json_payload), S n).

(** [response.raise_for_status()]: 4xx and 5xx raise. *)
Definition raise_for_status (status : Z) : result unit :=
  if ((400 <=? status)%Z && (status <? 600)%Z)%bool then Raise (HTTPError status)
  else Ok tt.

(** [sub in s] on strings. *)
Fixpoint contains (sub s : string) : bool :=
  String.prefix sub s ||
  match s with
  | EmptyString => false
  | String _ s' => contains sub s'
  end.

(** [key in x]: a key of a dict, an element of a list, a substring of a
    string; other values are not containers. *)
Definition py_in (key : string) (x : json) : result bool :=
  match x with
  | JDict d => Ok (dict_has d key)
  | JList l =>
      Ok (existsb (fun v => match v with JStr s => String.eqb s key | _ => false end) l)
  | JStr s => Ok (contains key s)
  | _ => Raise TypeError
  end.

(** [x[key]] with a string key: only a dict can be indexed so. *)
Definition py_item (x : json) (key : string) : result json :=
  match x with
  | JDict d => dict_item d key
  | _ => Raise TypeError
  end.

(** *** fetch_binance_p2p_data *)

(** The [payload] dict of the request. *)
Definition search_payload (asset fiat trade_type : string) (rows : Z) : payload :=
  {| p_asset := asset; p_fiat := fiat; p_merchantCheck := false;
     p_page := 1; p_rows := rows; p_tradeType := trade_type |}.

Definition fetch_binance_p2p_data
    (w : world) (asset fiat trade_type : string) (rows : Z) : io json :=
  try_except
    (let! response := post w (search_payload asset fiat trade_type rows) in
     match response with
     | PostRaises => lift (Raise ConnectionError)
     | Response status body =>
         let! _ := lift (raise_for_status status) in
         match body with
         | None => lift (Raise InvalidJSONError)
         | Some result =>
             let! has_data := lift (py_in "data" result) in
             if has_data : bool then lift (py_item result "data")
             else (* logged as an unexpected format *) io_ret (JList [])
         end
     end)
    (fun e => (* a RequestException is logged; either way it goes on up *)
       lift (Raise e)).

(** *** fetch_latest_binance_data *)

Definition fetch_latest_binance_data (w : world) (asset fiat : string) : io dict :=
  let! buy_offers := fetch_binance_p2p_data w asset fiat "BUY" 20 in
  let! sell_offers := fetch_binance_p2p_data w asset fiat "SELL" 20 in
  let! filtered_buy_offers := lift (py_iter buy_offers ≫= filter_offers) in
  let! filtered_sell_offers := lift (py_iter sell_offers ≫= filter_offers) in
  let! avg_buy_price := lift (calculate_average_price filtered_buy_offers) in
  let! avg_sell_price := lift (calculate_average_price filtered_sell_offers) in
  let! timestamp := now_string w in
  let! spread := lift (py_sub avg_sell_price avg_buy_price) in
  io_ret
    [ ("timestamp", JStr timestamp);
      ("asset", JStr asset);
      ("fiat", JStr fiat);
      ("buy_price", avg_buy_price);
      ("sell_price", avg_sell_price);
      ("spread", spread);
      ("buy_offers_count", JInt (Z.of_nat (length filtered_buy_offers)));
      ("sell_offers_count", JInt (Z.of_nat (length filtered_sell_offers)));
      ("buy_offers", JList (take 5 filtered_buy_offers));
      ("sell_offers", JList (take 5 filtered_sell_offers)) ].

(** *** fetch_multi_asset_data *)

(** The dict stored for an asset whose snapshot could not be composed. *)
Definition empty_data (timestamp asset fiat : string) : dict :=
  [ ("timestamp", JStr timestamp);
    ("asset", JStr asset);
    ("fiat", JStr fiat);
    ("buy_price", JInt 0);
    ("sell_price", JInt 0);
    ("spread", JInt 0);
    ("buy_offers_count", JInt 0);
    ("sell_offers_count", JInt 0);
    ("buy_offers", JList []);
    ("sell_offers", JList []) ].

Record multi_asset_data : Type := {
  ma_timestamp : string;
  assets_data : gmap string dict;
  primary_asset : string
}.

(** The loop over the assets, from the dict built so far. *)
Fixpoint fetch_assets (w : world) (timestamp fiat : string)
    (assets : list string) (acc : gmap string dict) : io (gmap string dict) :=
  match assets with
  | [] => io_ret acc
  | asset :: rest =>
      let! data := try_except
                (fetch_latest_binance_data w asset fiat)
                (fun e => io_ret (empty_data timestamp asset fiat)) in
      fetch_assets w timestamp fiat rest (<[asset := data]> acc)
  end.

(** The body of [fetch_multi_asset_data] for a given list of assets. *)
Definition fetch_multi_asset_data_for (w : world) (assets : list string)
  : io multi_asset_data :=
  let fiat := "SDG" in
  let! timestamp := now_string w in
  let! assets_data := fetch_assets w timestamp fiat assets ∅ in
  io_ret {| ma_timestamp := timestamp;
            assets_data := assets_data;
            primary_asset := "USDT" |}.

Definition fetch_multi_asset_data (w : world) : io multi_asset_data :=
  fetch_multi_asset_data_for w ["USDT"; "BTC"; "ETH"; "BNB"].

End BinanceApi.

(** * data_processor.py *)

(** ** The history file *)

(** What is at [HISTORY_FILE]. *)
Inductive file_state : Type :=
| NoFile                (* [os.path.exists] is false *)
| JsonFile (v : json)   (* a file whose text [json.load] decodes to [v] *)
| Garbled               (* a file whose text [json.load] rejects *)
| Unreadable.           (* a file that cannot be opened for reading *)

Definition path_exists (fs : file_state) : bool :=
  match fs with NoFile => false | _ => true end.

(** [with open(HISTORY_FILE, 'r') as f: json.load(f)]. *)
Definition load_json (fs : file_state) : result json :=
  match fs with
  | NoFile => Raise OSError
  | JsonFile v => Ok v
  | Garbled => Raise JSONDecodeError
  | Unreadable => Raise OSError
  end.

(** The fault, if any, that hits a write of the file. *)
Inductive write_fault : Type :=
| NoFault
| OpenFault               (* [open(HISTORY_FILE, 'w')] raises *)
| DumpFault (e : exn).    (* [json.dump] raises after the file was opened *)

(** [with open(HISTORY_FILE, 'w') as f: json.dump(v, f, indent=2)].
    Opening for writing empties the file; the text is then written piece by
    piece, so a dump that raises leaves a proper prefix of an array's text,
    which is not JSON. *)
Definition dump_json (fault : write_fault) (fs : file_state) (v : json)
  : file_state * result unit :=
  match fault with
  | NoFault => (JsonFile v, Ok tt)
  | OpenFault => (fs, Raise OSError)
  | DumpFault e => (Garbled, Raise e)
  end.

(** *** get_price_history *)

Definition get_price_history (fs : file_state) : json :=
  let body :=
    if path_exists fs then load_json fs
    else Ok (JList []) in
  match body with
  | Ok history => history
  | Raise e => (* logged *) JList []
  end.

(** *** save_price_data *)

(** [history.append(x)]: only a list has [append]. *)
Definition py_append (history x : json) : result (list json) :=
  match history with
  | JList l => Ok (l ++ [x])
  | _ => Raise AttributeError
  end.

(** The point stored for [data]. *)
Definition new_data_point (data : dict) : result json :=
  timestamp ← dict_item data "timestamp";
  buy_price ← dict_item data "buy_price";
  sell_price ← dict_item data "sell_price";
  spread ← dict_item data "spread";
  Ok (JDict [ ("timestamp", timestamp);
              ("buy_price", buy_price);
              ("sell_price", sell_price);
              ("spread", spread) ]).

(** [if len(history) > 168: history = history[-168:]]. *)
Definition keep_last_168 (history : list json) : list json :=
  if (168 <? length history)%nat
  then drop (length history - 168)%nat history
  else history.

(** The statements of the [try] block up to the write. *)
Definition history_to_save (fs : file_state) (data : dict) : result (list json) :=
  let history := get_price_history fs in
  point ← new_data_point data;
  history ← py_append history point;
  Ok (keep_last_168 history).

(** The file afterwards, and the function's result. *)
Definition save_price_data (fault : write_fault) (fs : file_state) (data : dict)
  : file_state * bool :=
  match history_to_save fs data with
  | Raise e => (* logged *) (fs, false)
  | Ok history =>
      match dump_json fault fs (JList history) with
      | (fs', Ok _) => (fs', true)
      | (fs', Raise e) => (* logged *) (fs', false)
      end
  end.

(** One call after the other, none of them hit by a fault. *)
Definition save_all (datas : list dict) (fs : file_state) : file_state :=
  foldl (fun fs data => fst (save_price_data NoFault fs data)) fs datas.

(** ** The rows of the historical sheet *)

Section ExcelExport.

(** Python's [repr] of a value that is not a [str], [None] or a [bool]. *)
Variable py_repr : json -> string.

(** [datetime.strptime(s, "%Y-%m-%d %H:%M:%S")] as the microseconds from
    0001-01-01 00:00:00 to the parsed instant; [None] stands for
    [ValueError]. Naive datetimes are ordered as these numbers are, and
    subtracting a [timedelta] subtracts its microseconds. *)
Variable strptime : string -> option Z.

(** [str(x)]. *)
Definition py_str (x : json) : string :=
  match x with
  | JStr s => s
  | JNull => "None"
  | JBool true => "True"
  | JBool false => "False"
  | _ => py_repr x
  end.

(** A row of the sheet: every cell is text. *)
Record row : Type := {
  Timestamp : string;
  Buy_Price : string;
  Sell_Price : string;
  Spread : string
}.

(** The row for a stored point; [point.get] needs a dict. *)
Definition history_row (point : json) : result row :=
  timestamp ← py_get point "timestamp" (JStr "N/A");
  buy_price ← py_get point "buy_price" (JStr "N/A");
  sell_price ← py_get point "sell_price" (JStr "N/A");
  spread ← py_get point "spread" (JStr "N/A");
  Ok {| Timestamp := py_str timestamp;
        Buy_Price := py_str buy_price;
        Sell_Price := py_str sell_price;
        Spread := py_str spread |}.

(** The loop over the history: a point that raises is logged and skipped. *)
Definition history_rows (history : list json) : list row :=
  foldl
    (fun summary_data point =>
       match history_row point with
       | Ok r => summary_data ++ [r]
       | Raise e => summary_data
       end)
    [] history.

(** The row for the current snapshot. *)
Definition current_row (data : dict) : row :=
  {| Timestamp := py_str (dict_get data "timestamp" (JStr "N/A"));
     Buy_Price := py_str (dict_get data "buy_price" (JStr "N/A"));
     Sell_Price := py_str (dict_get data "sell_price" (JStr "N/A"));
     Spread := py_str (dict_get data "spread" (JStr "N/A")) |}.

(** [any(item.get("Timestamp") == str(data.get("timestamp")) for item in ...)]. *)
Definition timestamp_present (data : dict) (summary_data : list row) : bool :=
  existsb
    (fun item => String.eqb (Timestamp item) (py_str (dict_get data "timestamp" JNull)))
    summary_data.

(** Add the current point unless its timestamp is already there. *)
Definition add_current (data : dict) (summary_data : list row) : list row :=
  if negb (timestamp_present data summary_data)
  then summary_data ++ [current_row data]
  else summary_data.

(** [summary_data.sort(key=lambda x: x["Timestamp"])]: a stable sort, strings
    compared character by character. *)
Fixpoint insert_row (r : row) (sorted : list row) : list row :=
  match sorted with
  | [] => [r]
  | r' :: rest =>
      if String.leb (Timestamp r) (Timestamp r') then r :: r' :: rest
      else r' :: insert_row r rest
  end.

Definition sort_rows (rows : list row) : list row :=
  foldr insert_row [] rows.

Definition hour_us : Z := 3600 * 1000000.
Definition day_us : Z := 24 * hour_us.

(** One turn of the filtering loop: is [item] appended to [filtered_data]? *)
Definition keeps (time_period : string) (current_time : Z) (item : row) : bool :=
  match strptime (Timestamp item) with
  | Some item_time =>
      if String.eqb time_period "hour" && (current_time - hour_us <=? item_time)%Z
      then true
      else if String.eqb time_period "day" && (current_time - day_us <=? item_time)%Z
      then true
      else if String.eqb time_period "month" && (current_time - 30 * day_us <=? item_time)%Z
      then true
      else false
  | None => (* logged *) true
  end.

(** [if time_period:] on [None] or a string. *)
Definition truthy (time_period : option string) : bool :=
  match time_period with
  | None => false
  | Some s => negb (String.eqb s "")
  end.

End ExcelExport.

(** ** The offers sheets and the names of the export *)

Section ExcelSheets.

Variable py_repr : json -> string.

(** [time_period == s] for a period that may be [None]. *)
Definition period_is (time_period : option string) (s : string) : bool :=
  match time_period with
  | Some p => String.eqb p s
  | None => false
  end.

Definition time_label (time_period : option string) : string :=
  if period_is time_period "hour" then "hourly"
  else if period_is time_period "day" then "daily"
  else if period_is time_period "month" then "monthly"
  else "complete".

Definition sheet_name (time_period : option string) : string :=
  if period_is time_period "hour" then "Last Hour Data"
  else if period_is time_period "day" then "Last 24 Hours Data"
  else if period_is time_period "month" then "Last 30 Days Data"
  else "Historical Data".

(** [sep.join(parts)]. *)
Fixpoint join (sep : string) (parts : list string) : string :=
  match parts with
  | [] => ""
  | [part] => part
  | part :: rest => part ++ sep ++ join sep rest
  end.

(** A row of an offers sheet. *)
Record offer_row : Type := {
  O_Timestamp : string;
  Advertiser : string;
  Price : string;
  Available_Quantity : string;
  Min_Order : string;
  Max_Order : string;
  Payment_Methods : string;
  Is_Merchant : string
}.

(** [", ".join([str(pm.get("payType", "N/A")) for pm in adv.get("tradeMethods", [])])]. *)
Definition payment_methods (adv : json) : result string :=
  methods ← py_get adv "tradeMethods" (JList []);
  pms ← py_iter methods;
  names ← mapM (fun pm => pay_type ← py_get pm "payType" (JStr "N/A");
                          Ok (py_str py_repr pay_type)) pms;
  Ok (join ", " names).

(** The body of the [try] in the loop over the offers. *)
Definition make_offer_row (data : dict) (offer : json) : result offer_row :=
  advertiser ← py_get offer "advertiser" (JDict []);
  adv ← py_get offer "adv" (JDict []);
  nick_name ← py_get advertiser "nickName" (JStr "N/A");
  price ← py_get adv "price" (JStr "N/A");
  quantity ← py_get adv "tradableQuantity" (JStr "N/A");
  min_order ← py_get adv "minSingleTransAmount" (JStr "N/A");
  max_order ← py_get adv "maxSingleTransAmount" (JStr "N/A");
  methods ← payment_methods adv;
  user_type ← py_get advertiser "userType" JNull;
  Ok {| O_Timestamp := py_str py_repr (dict_get data "timestamp" (JStr "N/A"));
        Advertiser := py_str py_repr nick_name;
        Price := py_str py_repr price;
        Available_Quantity := py_str py_repr quantity;
        Min_Order := py_str py_repr min_order;
        Max_Order := py_str py_repr max_order;
        Payment_Methods := methods;
        Is_Merchant := if is_merchant_value user_type then "Yes" else "No" |}.

(** The loop: an offer that raises is logged and skipped. *)
Definition offer_rows (data : dict) (offers : list json) : list offer_row :=
  foldl
    (fun offers_data offer =>
       match make_offer_row data offer with
       | Ok r => offers_data ++ [r]
       | Raise e => offers_data
       end)
    [] offers.

End ExcelSheets.

(** ** save_price_data_as_excel *)

(** A local name of a function body. Python fixes at compile time which names
    are local to a function: every name the body binds anywhere, an [import]
    included. Until something is bound to it, reading a local name raises
    [UnboundLocalError]. *)
Inductive binding : Type := Unbound | Bound.

Definition use_local (name : binding) : result unit :=
  match name with
  | Bound => Ok tt
  | Unbound => Raise UnboundLocalError
  end.

(** What the Excel writer does with the sheets it is given: it writes the
    file, it raises, or it leaves no file (or an empty one) behind. *)
Inductive excel_outcome : Type :=
| Written
| WriterRaises (e : exn)
| NotCreated.

Section ExcelFile.

Variable py_repr : json -> string.
Variable strptime : string -> option Z.

(** The one row of the sheet [Current Summary]. *)
Record summary_row : Type := {
  S_Timestamp : string;
  Average_Buy_Price : string;
  Average_Sell_Price : string;
  S_Spread : string;
  Buy_Offers_Count : string;
  Sell_Offers_Count : string
}.

Definition current_summary (data : dict) : summary_row :=
  {| S_Timestamp := py_str py_repr (dict_get data "timestamp" (JStr "N/A"));
     Average_Buy_Price := py_str py_repr (dict_get data "buy_price" (JStr "N/A"));
     Average_Sell_Price := py_str py_repr (dict_get data "sell_price" (JStr "N/A"));
     S_Spread := py_str py_repr (dict_get data "spread" (JStr "N/A"));
     Buy_Offers_Count := py_str py_repr (dict_get data "buy_offers_count" (JInt 0));
     Sell_Offers_Count := py_str py_repr (dict_get data "sell_offers_count" (JInt 0)) |}.

(** The file handed to the writer: its path and its four sheets. *)
Record workbook : Type := {
  filepath : string;
  first_sheet_name : string;
  historical_data : list row;
  current_summary_sheet : summary_row;
  buy_offers_sheet : list offer_row;
  sell_offers_sheet : list offer_row
}.

(** Lines 90 to 221: the statements of the [try] block from the first use of
    [datetime] to the last data frame, with the state of the local name
    [datetime] on reaching line 90. [stamp] is what
    [datetime.now().strftime("%Y%m%d_%H%M%S")] gives and [current_time] what
    [datetime.now()] gives at line 188. *)
Definition export_body (datetime : binding) (stamp : string) (current_time : Z)
    (fs : file_state) (data : dict) (time_period : option string) : result workbook :=
  (* line 90: timestamp = datetime.now().strftime(...) *)
  _ ← use_local datetime;
  let timestamp := stamp in
  let filename := ("USDT_SDG_prices_" ++ time_label time_period ++ "_" ++ timestamp
                   ++ ".xlsx")%string in
  let filepath := ("excel_exports/" ++ filename)%string in
  buy_offers ← py_iter (dict_get data "buy_offers" (JList []));
  let buy_offers_data := offer_rows py_repr data buy_offers in
  sell_offers ← py_iter (dict_get data "sell_offers" (JList []));
  let sell_offers_data := offer_rows py_repr data sell_offers in
  history ← py_iter (get_price_history fs);
  let summary_data := history_rows py_repr history in
  let summary_data := add_current py_repr data summary_data in
  let summary_data := sort_rows summary_data in
  summary_data ←
    match time_period with
    | Some period =>
        if truthy time_period then
          (* line 184: from datetime import datetime, timedelta *)
          let datetime := Bound in
          (* line 188: current_time = datetime.now() *)
          _ ← use_local datetime;
          Ok (List.filter (keeps strptime period current_time) summary_data)
        else Ok summary_data
    | None => Ok summary_data
    end;
  Ok {| filepath := filepath;
        first_sheet_name := sheet_name time_period;
        historical_data := summary_data;
        current_summary_sheet := current_summary data;
        buy_offers_sheet := buy_offers_data;
        sell_offers_sheet := sell_offers_data |}.

(** The function: the workbook it has written and whose path it returns, or
    the exception it lets through. [makedirs_raises] tells whether the export
    directory is missing and cannot be made. The import at line 184 binds
    [datetime] inside the body, so the name is local to the function, and
    nothing is bound to it when line 90 is reached. *)
Definition save_price_data_as_excel
    (makedirs_raises : bool) (stamp : string) (current_time : Z) (excel : excel_outcome)
    (fs : file_state) (data : dict) (time_period : option string) : result workbook :=
  let body :=
    _ ← (if makedirs_raises then Raise OSError else Ok tt);
    book ← export_body Unbound stamp current_time fs data time_period;
    match excel with
    | Written => Ok book
    | WriterRaises e => (* logged *) Raise e
    | NotCreated => (* logged *) Raise PlainException
    end in
  match body with
  | Ok book => Ok book
  | Raise e => (* logged *) Raise e
  end.

End ExcelFile.

(** ** A run of saves *)

(** Saves one after the other, each with the fault that hits it. *)
Definition save_run (steps : list (write_fault * dict)) (fs : file_state) : file_state :=
  foldl (fun fs step => fst (save_price_data (fst step) fs (snd step))) fs steps.

(** * email_sender.py *)

(** [bool(x)]. *)
Definition py_truthy (x : json) : bool :=
  match x with
  | JNull => false
  | JBool b => b
  | JInt z => negb (z =? 0)%Z
  | JFloat f => negb (PrimFloat.eqb f 0%float)
  | JStr s => negb (String.eqb s "")
  | JList l => match l with [] => false | _ => true end
  | JDict d => match d with [] => false | _ => true end
  end.

(** The message handed to the mail extension; [attachment] is what the
    history file holds. *)
Record message : Type := {
  subject : string;
  recipients : list string;
  body : string;
  attachment_name : string;
  content_type : string;
  attachment : json
}.

(** [send_price_history_email]: the result, the messages sent so far and the
    event counter. [stamp] reads the clock in the format [%Y%m%d_%H%M%S];
    [send_raises] tells whether the mail extension raises, be it when the
    message is built, when the file is attached or when the message is sent:
    both clock reads come before any of these. A file of size 0 does not
    decode, so it is [Garbled] and gives [False] like any file that does not
    decode. *)
Definition send_price_history_email
    (w : world) (stamp : nat -> string) (send_raises : bool)
    (fs : file_state) (recipient : string) (sent : list message) (n : nat)
  : bool * list message * nat :=
  if negb (path_exists fs) then (false, sent, n)
  else
    match load_json fs with
    | Raise e => (* logged *) (false, sent, n)
    | Ok json_data =>
        if negb (py_truthy json_data) then (false, sent, n)
        else
          let timestamp := stamp n in
          let msg :=
            {| subject := "USDT/SDG Price History Data - " ++ timestamp;
               recipients := [recipient];
               body := "Please find attached the latest USDT/SDG price history data as of "
                       ++ clock w (S n) ++ ".";
               attachment_name := "price_history_" ++ timestamp ++ ".json";
               content_type := "application/json";
               attachment := json_data |} in
          if send_raises then (* logged *) (false, sent, S (S n))
          else (true, sent ++ [msg], S (S n))
    end.

Notation "'let!' x ':=' m 'in' k" := (io_bind m (fun x => k))
  (at level 10, x name, m at level 100, k at level 200, only parsing).

(** [fetch_data] of the polling script at the end of the module. *)
Definition fetch_data (w : world) (json_payload : payload) : io json :=
  let! response := post w json_payload in
  match response with
  | PostRaises => lift (Raise ConnectionError)
  | Response status body =>
      if (status =? 200)%Z then
        match body with
        | None => lift (Raise InvalidJSONError)
        | Some result => lift (py_get result "data" (JList []))
        end
      else (* printed *) io_ret (JList [])
  end.

(** * app.py *)

(** What a route answers: the status and what [jsonify] is given, the
    exception standing for [{"error": str(e)}]. *)
Record reply (A : Type) : Type := {
  status_code : Z;
  payload_of : result A
}.
Arguments status_code {A} r.
Arguments payload_of {A} r.

(** [try: return jsonify(m())  except Exception as e: return jsonify(error), 500]. *)
Definition json_route {A} (m : io A) (n : nat) : reply A :=
  match fst (m n) with
  | Ok a => {| status_code := 200; payload_of := Ok a |}
  | Raise e => (* logged *) {| status_code := 500; payload_of := Raise e |}
  end.

(** [request.args.get(key, default)]. *)
Definition args_get (args : list (string * string)) (key default : string) : string :=
  match List.find (fun kv => String.eqb (fst kv) key) args with
  | Some kv => snd kv
  | None => default
  end.

(** [request.args.get(key)]. *)
Definition args_lookup (args : list (string * string)) (key : string) : option string :=
  match List.find (fun kv => String.eqb (fst kv) key) args with
  | Some kv => Some (snd kv)
  | None => None
  end.

Section AppRoutes.

Variable float_of_string : string -> option float.
Variable py_repr : json -> string.
Variable strptime : string -> option Z.

(** [/api/latest-data]. *)
Definition get_latest_data (w : world) (args : list (string * string)) (n : nat)
  : reply dict :=
  json_route
    (fetch_latest_binance_data float_of_string w
       (args_get args "asset" "USDT") (args_get args "fiat" "SDG")) n.

(** [/api/multi-asset-data]. *)
Definition get_multi_asset_data (w : world) (n : nat) : reply multi_asset_data :=
  json_route (fetch_multi_asset_data float_of_string w) n.

(** [/api/download-excel]: the path of the file in the reply. The second look
    at the file repeats the check the export has just made. *)
Definition download_excel (w : world)
    (makedirs_raises : bool) (stamp : string) (current_time : Z) (excel : excel_outcome)
    (fs : file_state) (args : list (string * string)) (n : nat) : reply string :=
  json_route
    (let time_period := args_lookup args "period" in
     let! latest_data := fetch_latest_binance_data float_of_string w "USDT" "SDG" in
     let! book := lift (save_price_data_as_excel py_repr strptime makedirs_raises stamp
                          current_time excel fs latest_data time_period) in
     io_ret (filepath book)) n.

End AppRoutes.

(** * Instances of the library functions, for the examples

    Each agrees with Python on the inputs it accepts and covers only the
    plain spellings the examples use. *)

Definition digit_of_ascii (c : ascii) : option Z :=
  let n := Z.of_N (N_of_ascii c) in
  if ((48 <=? n)%Z && (n <=? 57)%Z)%bool then Some (n - 48) else None.

(** The number spelled by a run of decimal digits, most significant first. *)
Fixpoint digits_value (acc : Z) (s : string) : option Z :=
  match s with
  | EmptyString => Some acc
  | String c s' =>
      match digit_of_ascii c with
      | Some d => digits_value (10 * acc + d) s'
      | None => None
      end
  end.

(** [float(s)] for [s] a non-empty run of decimal digits. *)
Definition float_of_digits (s : string) : option float :=
  match s with
  | EmptyString => None
  | _ => float_of_Z <$> digits_value 0 s
  end.

(** [repr] of an [int], and nothing for the other values. *)
Definition repr_int (x : json) : string :=
  match x with
  | JInt z => pretty z
  | _ => ""
  end.

Definition is_leap (y : Z) : bool :=
  ((y mod 4 =? 0)%Z && (negb (y mod 100 =? 0)%Z || (y mod 400 =? 0)%Z))%bool.

Definition days_in_month (y m : Z) : Z :=
  if (m =? 2)%Z then (if is_leap y then 29 else 28)
  else if ((m =? 4) || (m =? 6) || (m =? 9) || (m =? 11))%Z%bool then 30
  else 31.

(** Days from 0001-01-01 to the first day of year [y]. *)
Definition days_before_year (y : Z) : Z :=
  let p := y - 1 in 365 * p + p / 4 - p / 100 + p / 400.

(** Days from the first day of year [y] to the first day of its month [m]. *)
Definition days_before_month (y m : Z) : Z :=
  foldr (fun k acc => days_in_month y (Z.of_nat k) + acc) 0 (seq 1 (Z.to_nat m - 1)).

Definition two_digits (a b : ascii) : option Z :=
  hi ← digit_of_ascii a; lo ← digit_of_ascii b; Some (10 * hi + lo).

(** [strptime] on the zero-padded spelling [YYYY-MM-DD HH:MM:SS]. *)
Definition strptime_padded (s : string) : option Z :=
  match list_ascii_of_string s with
  | [y1; y2; y3; y4; "-"; m1; m2; "-"; d1; d2; " "; h1; h2; ":"; n1; n2; ":"; s1; s2]%char =>
      yh ← two_digits y1 y2; yl ← two_digits y3 y4;
      month ← two_digits m1 m2;
      day ← two_digits d1 d2;
      hour ← two_digits h1 h2;
      minute ← two_digits n1 n2;
      second ← two_digits s1 s2;
      let year := 100 * yh + yl in
      if ((1 <=? year) && (1 <=? month) && (month <=? 12) && (1 <=? day)
          && (day <=? days_in_month year month)
          && (hour <? 24) && (minute <? 60) && (second <? 60))%Z%bool
      then
        let days := days_before_year year + days_before_month year month + (day - 1) in
        Some ((((days * 24 + hour) * 60 + minute) * 60 + second) * 1000000)
      else None
  | _ => None
  end.

(** A listing as the marketplace sends it, reduced to the fields read here. *)
Definition listing (price quantity : json) (user_type : string) : json :=
  JDict [ ("adv", JDict [ ("price", price); ("tradableQuantity", quantity) ]);
          ("advertiser", JDict [ ("userType", JStr user_type) ]) ].

(** The BUY listings of the scenario of spec section 8. *)
Definition scenario_listings : list json :=
  [ listing (JInt 600) (JInt 2000) "user";
    listing (JInt 610) (JInt 50) "merchant" ].

(** A merchant's listing whose quantity is not a number. *)
Definition unparsable_listing : json :=
  listing (JStr "600") (JStr "n/a") "merchant".

(** The search answers 200 with a JSON object that has no [data] field. *)
Definition world_without_data : world :=
  {| http := fun _ _ => Response 200 (Some (JDict [ ("code", JStr "000002") ]));
     clock := fun _ => "2025-01-01 12:00:00" |}.

(** The search answers 304 with the scenario's listings. *)
Definition world_not_modified : world :=
  {| http := fun _ _ => Response 304 (Some (JDict [ ("data", JList scenario_listings) ]));
     clock := fun _ => "2025-01-01 12:00:00" |}.

(** The search answers 200 with the scenario's listings, except for BTC, for
    which the connection fails. *)
Definition world_btc_down : world :=
  {| http := fun _ request =>
       if String.eqb (p_asset request) "BTC" then PostRaises
       else Response 200 (Some (JDict [ ("data", JList scenario_listings) ]));
     clock := fun _ => "2025-01-01 12:00:00" |}.

(** The [i]-th snapshot of a run: the four stored fields and one more. *)
Definition snapshot_at (i : nat) : dict :=
  [ ("timestamp", JStr (pretty i));
    ("asset", JStr "USDT");
    ("buy_price", JInt (Z.of_nat i));
    ("sell_price", JInt (Z.of_nat i + 5));
    ("spread", JInt 5) ].

(** The point stored for it. *)
Definition point_at (i : nat) : json :=
  JDict [ ("timestamp", JStr (pretty i));
          ("buy_price", JInt (Z.of_nat i));
          ("sell_price", JInt (Z.of_nat i + 5));
          ("spread", JInt 5) ].

(** A stored point with the given timestamp. *)
Definition stored_point (timestamp : string) : json :=
  JDict [ ("timestamp", JStr timestamp);
          ("buy_price", JInt 600);
          ("sell_price", JInt 610);
          ("spread", JInt 10) ].

(** A history of three points: two hours before noon, half an hour before
    noon, and one whose timestamp is not a date. *)
Definition sample_history : file_state :=
  JsonFile (JList [ stored_point "2025-01-01 10:00:00";
                    stored_point "2025-01-01 11:30:00";
                    stored_point "yesterday" ]).

(** The snapshot taken at noon, and one taken half an hour before. *)
Definition snapshot_noon : dict :=
  [ ("timestamp", JStr "2025-01-01 12:00:00");
    ("buy_price", JInt 601);
    ("sell_price", JInt 611);
    ("spread", JInt 10);
    ("buy_offers", JList []);
    ("sell_offers", JList []) ].

(** Noon of 2025-01-01, in microseconds from 0001-01-01. *)
Definition noon : Z := 63871329600000000.

(** * What the specification says, in its own words *)

(** Spec 4.2: the advertiser's merchant flag. *)
Definition is_merchant (offer : json) : bool :=
  match offer with
  | JDict o =>
      match dict_get o "advertiser" (JDict []) with
      | JDict advertiser => is_merchant_value (dict_get advertiser "userType" JNull)
      | _ => false
      end
  | _ => false
  end.

(** Spec 4.2: the tradable quantity of a listing, 0 when the listing gives
    none. *)
Definition tradable_quantity (float_of_string : string -> option float)
    (offer : json) : result float :=
  adv ← py_get offer "adv" (JDict []);
  quantity ← py_get adv "tradableQuantity" (JInt 0);
  py_float float_of_string quantity.

(** Spec 4.2: keep a listing iff it is a merchant's or its quantity is above
    1000, a quantity that does not parse counting as 0. *)
Definition eligible (float_of_string : string -> option float) (offer : json) : bool :=
  is_merchant offer ||
  match tradable_quantity float_of_string offer with
  | Ok q => PrimFloat.ltb 1000%float q
  | Raise _ => PrimFloat.ltb 1000%float 0%float
  end.

(** Spec 4.2: the mean of the prices, summed in order, no weights. *)
Definition arithmetic_mean (prices : list float) (count : float) : float :=
  PrimFloat.div (fold_left PrimFloat.add prices 0%float) count.

(** Spec 4.3: what [composeMulti] holds for an asset: its snapshot, composed
    from event [k] on, or the zero-valued placeholder when composing fails. *)
Definition snapshot_or_placeholder (float_of_string : string -> option float)
    (w : world) (timestamp asset fiat : string) (k : nat) : dict :=
  match fst (fetch_latest_binance_data float_of_string w asset fiat k) with
  | Ok data => data
  | Raise _ => empty_data timestamp asset fiat
  end.

(** Spec 4.1 and 7: the failures that count as transport errors. *)
Definition transport_failure (outcome : http_outcome) : Prop :=
  match outcome with
  | PostRaises => True
  | Response status body => (400 <= status < 600)%Z \/ body = None
  end.

(** Spec 3 and 4.4: the last 168 elements of a sequence. *)
Definition last_168 (history : list json) : list json :=
  drop (length history - 168)%nat history.

(** Spec 4.5: a point is in the window when its timestamp is not before
    [now - duration]; a timestamp that does not parse is retained. *)
Definition in_window (strptime : string -> option Z) (duration now : Z) (r : row) : bool :=
  match strptime (Timestamp r) with
  | Some t => (now - duration <=? t)%Z
  | None => true
  end.

(** A row whose timestamp does not parse. *)
Definition unparseable (strptime : string -> option Z) (r : row) : bool :=
  match strptime (Timestamp r) with
  | Some _ => false
  | None => true
  end.

(** One side of a composed snapshot, against the listings the marketplace
    sent for it: the count is that of the eligible listings, the offers shown
    are the first five of them, and the price is their average, the integer 0
    when there is none and a float otherwise. *)
Definition side_well_formed (float_of_string : string -> option float)
    (data : dict) (listings : list json) (price_key count_key offers_key : string)
  : Prop :=
  let kept := List.filter (eligible float_of_string) listings in
  dict_lookup data count_key = Some (JInt (Z.of_nat (length kept)))
  /\ dict_lookup data offers_key = Some (JList (take 5 kept))
  /\ exists price,
       dict_lookup data price_key = Some price
       /\ calculate_average_price float_of_string kept = Ok price
       /\ ((kept = [] /\ price = JInt 0) \/ (kept <> [] /\ exists f, price = JFloat f)).

(** The running total of [calculate_average_price]: the integer 0 it starts
    as, or a float. *)
Definition running_total (total : json) : Prop :=
  total = JInt 0 \/ exists t, total = JFloat t.

(** A history that, when it reads as a list, has at most 168 elements. *)
Definition bounded (fs : file_state) : Prop :=
  match get_price_history fs with
  | JList history => (length history <= 168)%nat
  | _ => True
  end.

(** A stored point the export can read. *)
Definition is_dict (x : json) : bool :=
  match x with JDict _ => true | _ => false end.

(** A snapshot without the [spread] field. *)
Definition snapshot_without_spread : dict :=
  [ ("timestamp", JStr "2025-01-01 12:00:00");
    ("buy_price", JInt 601);
    ("sell_price", JInt 611) ].

(** The clock in the format of file names. *)
Definition stamp_noon (n : nat) : string := "20250101_120000".

(** * Properties *)

Ltac unfold_bind := cbn [mbind result_bind mret result_ret] in *.

Section BinanceApiProperties.

Variable fos : string -> option float.

Lemma offer_passes_eligible offer b :
  offer_passes fos offer = Ok b -> eligible fos offer = b.
Proof.
  unfold offer_passes, eligible, tradable_quantity, is_merchant.
  destruct offer; cbn; try discriminate.
  destruct (dict_get d "advertiser" (JDict [])); cbn; try discriminate.
  destruct (dict_get d "adv" (JDict [])); cbn; try discriminate.
  destruct (py_float _ _); cbn; [|discriminate].
  congruence.
Qed.

Lemma filter_step_ok acc o b :
  offer_passes fos o = Ok b ->
  filter_step fos acc o = Ok (if b then acc ++ [o] else acc).
Proof. intros Hb. unfold filter_step. by rewrite Hb. Qed.

Lemma filter_step_raises acc o e :
  offer_passes fos o = Raise e -> filter_step fos acc o = Raise e.
Proof. intros Hb. unfold filter_step. by rewrite Hb. Qed.

Lemma filter_offers_from acc offers :
  Forall (fun o => is_ok (offer_passes fos o) = true) offers ->
  for_each (filter_step fos) offers acc = Ok (acc ++ List.filter (eligible fos) offers).
Proof.
  intros Hall. revert acc.
  induction Hall as [|o offers Ho _ IH]; intros acc; cbn [for_each List.filter].
  - by rewrite app_nil_r.
  - destruct (offer_passes fos o) as [b|e] eqn:Hb; [|discriminate Ho].
    rewrite (filter_step_ok _ _ _ Hb), (offer_passes_eligible _ _ Hb).
    unfold_bind. rewrite IH.
    destruct b; [|done].
    by rewrite <- app_assoc.
Qed.

Lemma filter_offers_raises acc pre o post e :
  Forall (fun o => is_ok (offer_passes fos o) = true) pre ->
  offer_passes fos o = Raise e ->
  for_each (filter_step fos) (pre ++ o :: post) acc = Raise e.
Proof.
  intros Hall Ho. revert acc.
  induction Hall as [|x pre Hx _ IH]; intros acc; cbn [for_each app].
  - by rewrite (filter_step_raises _ _ _ Ho).
  - destruct (offer_passes fos x) as [b|e'] eqn:Hb; [|discriminate Hx].
    rewrite (filter_step_ok _ _ _ Hb). unfold_bind. apply IH.
Qed.

Lemma offer_passes_unparsable o adv s :
  py_get o "adv" (JDict []) = Ok (JDict adv) ->
  is_ok (py_get o "advertiser" (JDict []) ≫= fun a => py_get a "userType" JNull) = true ->
  dict_lookup adv "tradableQuantity" = Some (JStr s) ->
  fos s = None ->
  offer_passes fos o = Raise ValueError.
Proof.
  unfold offer_passes. intros Hadv Hmer Hq Hs.
  destruct (py_get o "advertiser" (JDict [])) as [a|]; [|discriminate Hmer].
  rewrite Hadv. unfold_bind.
  destruct (py_get a "userType" JNull); [|discriminate Hmer].
  unfold_bind. cbn [py_get]. unfold dict_get. rewrite Hq.
  unfold_bind. cbn [py_float]. by rewrite Hs.
Qed.

(** C2 (as amended). When every listing has the expected shape and a quantity
    that converts to a number, [filter_offers] returns exactly the sublist of
    listings that are a merchant's or have a quantity above 1000; a listing
    without a quantity counts as quantity 0; a listing that cannot be judged
    makes the whole filter raise; and a quantity string that does not parse
    is such a listing, merchant or not. *)
Theorem filter_offers_keeps_eligible (offers : list json) :
  Forall (fun o => is_ok (offer_passes fos o) = true) offers ->
  filter_offers fos offers = Ok (List.filter (eligible fos) offers)
  /\ (forall o adv, py_get o "adv" (JDict []) = Ok (JDict adv) ->
        dict_lookup adv "tradableQuantity" = None ->
        tradable_quantity fos o = Ok 0%float)
  /\ (forall o post e, offer_passes fos o = Raise e ->
        filter_offers fos (offers ++ o :: post) = Raise e)
  /\ (forall o adv s post,
        py_get o "adv" (JDict []) = Ok (JDict adv) ->
        is_ok (py_get o "advertiser" (JDict []) ≫= fun a => py_get a "userType" JNull) = true ->
        dict_lookup adv "tradableQuantity" = Some (JStr s) ->
        fos s = None ->
        filter_offers fos (offers ++ o :: post) = Raise ValueError).
Proof.
  intros Hall. unfold filter_offers. repeat split.
  - by rewrite filter_offers_from.
  - intros o adv Hadv Hq. unfold tradable_quantity. rewrite Hadv.
    unfold_bind. cbn [py_get]. unfold dict_get. by rewrite Hq.
  - intros o post e Ho. by apply filter_offers_raises.
  - intros o adv s post Hadv Hmer Hq Hs.
    apply filter_offers_raises; [done|].
    by eapply offer_passes_unparsable.
Qed.

Lemma price_step_ok acc o p :
  offer_price fos o = Ok p -> price_step fos acc o = add_price acc p.
Proof. intros Hp. unfold price_step. by rewrite Hp. Qed.

Lemma total_price_from offers prices t :
  mapM (offer_price fos) offers = Ok prices ->
  for_each (price_step fos) offers (JFloat t)
  = Ok (JFloat (fold_left PrimFloat.add prices t)).
Proof.
  revert prices t.
  induction offers as [|o offers IH]; intros prices t; cbn [mapM for_each].
  - intros [= <-]. done.
  - destruct (offer_price fos o) as [p|e] eqn:Hp; [|discriminate].
    unfold_bind.
    destruct (mapM (offer_price fos) offers) as [ps|e]; [|discriminate].
    intros [= <-]. rewrite (price_step_ok _ _ _ Hp).
    cbn [add_price fold_left]. unfold_bind. by apply IH.
Qed.

(** C8. [calculate_average_price] gives the integer 0 for no offers, and
    otherwise the sum of the offers' unit prices, taken in order without
    weights, divided by their number; the two BUY listings of the scenario
    both pass the filter and average 605. *)
Theorem calculate_average_price_mean :
  calculate_average_price fos [] = Ok (JInt 0)
  /\ (forall offers prices count,
        offers <> [] ->
        mapM (offer_price fos) offers = Ok prices ->
        float_of_int (Z.of_nat (length offers)) = Ok count ->
        calculate_average_price fos offers
        = Ok (JFloat (arithmetic_mean prices count)))
  /\ filter_offers fos scenario_listings = Ok scenario_listings
  /\ calculate_average_price fos scenario_listings = Ok (JFloat 605%float).
Proof.
  split; [done|]. split; [|split; vm_compute; reflexivity].
  intros offers prices count Hne Hprices Hcount.
  destruct offers as [|o offers]; [done|].
  unfold calculate_average_price.
  cbn [mapM] in Hprices. cbn [for_each].
  destruct (offer_price fos o) as [p|e] eqn:Hp; [|discriminate].
  unfold_bind.
  destruct (mapM (offer_price fos) offers) as [ps|e] eqn:Hps; [|discriminate].
  injection Hprices as <-. rewrite (price_step_ok _ _ _ Hp).
  change (add_price (JInt 0) p) with (Ok (JFloat (PrimFloat.add 0%float p))).
  unfold_bind. rewrite (total_price_from _ _ _ Hps).
  unfold_bind. unfold py_truediv_int. rewrite Hcount. done.
Qed.

(** ** The marketplace client *)

Lemma raise_for_status_ok status :
  raise_for_status status = Ok tt <-> ~ (400 <= status < 600)%Z.
Proof.
  unfold raise_for_status.
  destruct (400 <=? status)%Z eqn:H1, (status <? 600)%Z eqn:H2; cbn; split;
    try discriminate; try done; lia.
Qed.

Lemma raise_for_status_raises status :
  (400 <= status < 600)%Z -> raise_for_status status = Raise (HTTPError status).
Proof.
  intros [H1 H2]. unfold raise_for_status.
  apply Z.leb_le in H1. apply Z.ltb_lt in H2. by rewrite H1, H2.
Qed.

(** C4 (as amended). [fetch_binance_p2p_data] raises a [RequestException]
    exactly when the request fails, the status is 4xx or 5xx, or the body is
    not JSON; on a JSON object it returns the [data] field, and an empty list
    (not a failure) when that field is absent. *)
Theorem fetch_binance_p2p_data_outcomes
    (w : world) (asset fiat trade_type : string) (rows : Z) (n : nat) :
  let outcome := http w n (search_payload asset fiat trade_type rows) in
  let r := fst (fetch_binance_p2p_data w asset fiat trade_type rows n) in
  ((exists e, r = Raise e /\ is_RequestException e = true) <-> transport_failure outcome)
  /\ (forall status d,
        outcome = Response status (Some (JDict d)) ->
        ~ (400 <= status < 600)%Z ->
        r = Ok (dict_get d "data" (JList []))).
Proof.
  cbn zeta. unfold fetch_binance_p2p_data, try_except, io_bind, post, lift, io_ret.
  destruct (http w n (search_payload asset fiat trade_type rows))
    as [|status body] eqn:Hout; cbn [fst transport_failure].
  - split; [|discriminate]. split; [done|]. intros _. by exists ConnectionError.
  - destruct (decide (400 <= status < 600)%Z) as [Hst|Hst].
    + rewrite (raise_for_status_raises _ Hst). cbn [fst]. split.
      * split; [by left|]. intros _. by exists (HTTPError status).
      * intros st d [= -> _] Hno. done.
    + rewrite (proj2 (raise_for_status_ok status) Hst).
      destruct body as [result|]; cbn [fst].
      * split.
        -- split; [|intros [?|?]; done].
           intros (e & He & Hreq).
           destruct result as [|b|z|f|s|l|d]; cbn in He;
             try (injection He as <-; discriminate Hreq); try discriminate He.
           ++ destruct (contains "data" s); cbn in He; [|discriminate He].
              injection He as <-. discriminate Hreq.
           ++ destruct (existsb _ l); cbn in He; [|discriminate He].
              injection He as <-. discriminate Hreq.
           ++ unfold dict_has, dict_item in He.
              destruct (dict_lookup d "data"); cbn in He; discriminate He.
        -- intros st d [= _ ->] _. cbn [py_in lift py_item].
           unfold dict_has, dict_item, dict_get.
           destruct (dict_lookup d "data"); cbn; done.
      * split; [|discriminate]. split; [by right|]. intros _. by exists InvalidJSONError.
Qed.

(** ** The snapshot composer *)

(** A composed snapshot always carries its timestamp, as a string. *)
Lemma fetch_latest_binance_data_timestamp w asset fiat n data n' :
  fetch_latest_binance_data fos w asset fiat n = (Ok data, n') ->
  exists timestamp, dict_lookup data "timestamp" = Some (JStr timestamp).
Proof.
  unfold fetch_latest_binance_data, io_bind, lift, io_ret, now_string.
  repeat case_match; try discriminate.
  intros [= <- _]. by eexists.
Qed.

Lemma fetch_assets_isolated (w : world) (timestamp fiat : string)
    (assets : list string) (acc : gmap string dict) (n : nat) :
  exists m n',
    fetch_assets fos w timestamp fiat assets acc n = (Ok m, n')
    /\ (forall asset, asset ∈ assets ->
          exists k, m !! asset = Some (snapshot_or_placeholder fos w timestamp asset fiat k))
    /\ (forall asset, asset ∉ assets -> m !! asset = acc !! asset).
Proof.
  revert acc n.
  induction assets as [|a rest IH]; intros acc n; cbn [fetch_assets].
  - exists acc, n. split; [done|]. split; [|done].
    intros asset Hin. by apply elem_of_nil in Hin.
  - unfold io_bind at 1, try_except.
    pose (data := snapshot_or_placeholder fos w timestamp a fiat n).
    assert (exists n1,
      match fetch_latest_binance_data fos w a fiat n with
      | (Ok x, n') => (Ok x, n')
      | (Raise e, n') => io_ret (empty_data timestamp a fiat) n'
      end = (Ok data, n1)) as [n1 ->].
    { subst data. unfold snapshot_or_placeholder.
      destruct (fetch_latest_binance_data fos w a fiat n) as [[d|e] n1];
        by exists n1. }
    destruct (IH (<[a := data]> acc) n1) as (m & n' & Hrun & Hin & Hout).
    exists m, n'. split; [done|]. split.
    + intros asset Hasset.
      destruct (decide (asset ∈ rest)) as [Hrest|Hrest]; [by apply Hin|].
      apply elem_of_cons in Hasset as [->|?]; [|done].
      exists n. rewrite (Hout _ Hrest). by rewrite lookup_insert_eq.
    + intros asset Hasset. apply not_elem_of_cons in Hasset as [Hne Hrest].
      rewrite (Hout _ Hrest). by rewrite lookup_insert_ne.
Qed.

(** C5. Whatever the list of assets, [fetch_multi_asset_data] returns a
    result: each asset maps to its snapshot when composing it succeeds and,
    when it fails, to the placeholder, which carries the batch timestamp,
    zero prices, spread and counts and empty offer lists. *)
Theorem fetch_multi_asset_data_isolates_failures
    (w : world) (assets : list string) (n : nat) :
  exists res n',
    fetch_multi_asset_data_for fos w assets n = (Ok res, n')
    /\ ma_timestamp res = clock w n
    /\ (forall asset, asset ∈ assets ->
          exists k,
            match fst (fetch_latest_binance_data fos w asset "SDG" k) with
            | Ok data => assets_data res !! asset = Some data
            | Raise _ =>
                assets_data res !! asset = Some (empty_data (clock w n) asset "SDG")
            end)
    /\ (forall asset,
          let d := empty_data (clock w n) asset "SDG" in
          dict_lookup d "timestamp" = Some (JStr (clock w n))
          /\ dict_lookup d "buy_price" = Some (JInt 0)
          /\ dict_lookup d "sell_price" = Some (JInt 0)
          /\ dict_lookup d "spread" = Some (JInt 0)
          /\ dict_lookup d "buy_offers_count" = Some (JInt 0)
          /\ dict_lookup d "sell_offers_count" = Some (JInt 0)
          /\ dict_lookup d "buy_offers" = Some (JList [])
          /\ dict_lookup d "sell_offers" = Some (JList [])).
Proof.
  unfold fetch_multi_asset_data_for, io_bind at 1, now_string.
  destruct (fetch_assets_isolated w (clock w n) "SDG" assets ∅ (S n))
    as (m & n' & Hrun & Hin & _).
  exists {| ma_timestamp := clock w n; assets_data := m; primary_asset := "USDT" |}, n'.
  split; [|split; [done|split; [|done]]].
  - unfold io_bind. by rewrite Hrun.
  - intros asset Hasset. destruct (Hin asset Hasset) as [k Hk]. exists k.
    unfold snapshot_or_placeholder in Hk. cbn [assets_data].
    by destruct (fst (fetch_latest_binance_data fos w asset "SDG" k)).
Qed.

(** The function itself runs the loop over its four assets. *)
Lemma fetch_multi_asset_data_assets (w : world) :
  fetch_multi_asset_data fos w
  = fetch_multi_asset_data_for fos w ["USDT"; "BTC"; "ETH"; "BNB"].
Proof. reflexivity. Qed.

End BinanceApiProperties.



(** ** The rolling history store *)

Lemma keep_last_168_last history : keep_last_168 history = last_168 history.
Proof.
  unfold keep_last_168, last_168.
  destruct (168 <? length history)%nat eqn:Hlen; [done|].
  apply Nat.ltb_ge in Hlen.
  replace (length history - 168)%nat with 0%nat by lia. done.
Qed.

Lemma length_last_168 history : (length (last_168 history) <= 168)%nat.
Proof. unfold last_168. rewrite length_drop. lia. Qed.

Lemma last_168_short history :
  (length history <= 168)%nat -> last_168 history = history.
Proof.
  intros Hlen. unfold last_168.
  replace (length history - 168)%nat with 0%nat by lia. done.
Qed.

(** Evicting early does not change what is left in the end. *)
Lemma last_168_app history more :
  last_168 (last_168 history ++ more) = last_168 (history ++ more).
Proof.
  destruct (decide (length history <= 168)%nat) as [Hlen|Hlen].
  { by rewrite (last_168_short history). }
  unfold last_168. rewrite !length_app, length_drop.
  set (n := (length history - 168)%nat).
  replace (length history - n + length more - 168)%nat with (length more) by lia.
  replace (length history + length more - 168)%nat with (n + length more)%nat by lia.
  rewrite <- drop_drop. f_equal.
  rewrite drop_app_le by lia. done.
Qed.

Lemma history_to_save_list fs data old point :
  get_price_history fs = JList old ->
  new_data_point data = Ok point ->
  history_to_save fs data = Ok (last_168 (old ++ [point])).
Proof.
  intros Hold Hpoint. unfold history_to_save. rewrite Hold, Hpoint.
  unfold_bind. cbn [py_append]. unfold_bind. by rewrite keep_last_168_last.
Qed.

Lemma save_price_data_list fs data old point :
  get_price_history fs = JList old ->
  new_data_point data = Ok point ->
  save_price_data NoFault fs data = (JsonFile (JList (last_168 (old ++ [point]))), true).
Proof.
  intros Hold Hpoint. unfold save_price_data.
  by rewrite (history_to_save_list _ _ _ _ Hold Hpoint).
Qed.

Lemma save_all_file datas : forall old points,
  (length old <= 168)%nat ->
  mapM new_data_point datas = Ok points ->
  save_all datas (JsonFile (JList old)) = JsonFile (JList (last_168 (old ++ points))).
Proof.
  induction datas as [|data datas IH]; intros old points Hlen; cbn [mapM].
  - intros [= <-]. rewrite app_nil_r, last_168_short by done. done.
  - destruct (new_data_point data) as [point|] eqn:Hpoint; [|discriminate].
    unfold_bind.
    destruct (mapM new_data_point datas) as [rest|] eqn:Hrest; [|discriminate].
    intros [= <-]. unfold save_all. cbn [foldl].
    rewrite (save_price_data_list (JsonFile (JList old)) data old point eq_refl Hpoint).
    cbn [fst].
    fold (save_all datas (JsonFile (JList (last_168 (old ++ [point]))))).
    rewrite (IH (last_168 (old ++ [point])) rest); [|apply length_last_168|done].
    rewrite last_168_app. by rewrite <- app_assoc.
Qed.

Lemma save_all_from_empty data datas point points :
  new_data_point data = Ok point ->
  mapM new_data_point datas = Ok points ->
  save_all (data :: datas) NoFile = JsonFile (JList (last_168 (point :: points))).
Proof.
  intros Hpoint Hpoints. unfold save_all. cbn [foldl].
  rewrite (save_price_data_list NoFile data [] point eq_refl Hpoint). cbn [fst app].
  fold (save_all datas (JsonFile (JList (last_168 [point])))).
  rewrite (last_168_short [point]) by (cbn; lia).
  by rewrite (save_all_file datas [point] points ltac:(cbn; lia) Hpoints).
Qed.

Lemma length_mapM_points datas : forall points,
  mapM new_data_point datas = Ok points -> length points = length datas.
Proof.
  induction datas as [|d datas IH]; intros points; cbn [mapM].
  - intros [= <-]. done.
  - destruct (new_data_point d); [|discriminate]. unfold_bind.
    destruct (mapM new_data_point datas) as [ps|]; [|discriminate].
    intros [= <-]. cbn [length]. f_equal. by apply IH.
Qed.

(** C1. Saving a point to a stored sequence appends it at the end and keeps
    the last 168 elements, so what is stored is never longer than 168; 200
    points saved in order to an empty store leave the last 168 of them,
    oldest first. *)
Theorem save_price_data_keeps_last_168
    (fs : file_state) (old : list json) (data : dict) (point : json) :
  get_price_history fs = JList old ->
  new_data_point data = Ok point ->
  (exists stored,
      save_price_data NoFault fs data = (JsonFile (JList stored), true)
      /\ stored = last_168 (old ++ [point])
      /\ (length stored <= 168)%nat
      /\ last stored = Some point
      /\ ((length old < 168)%nat -> stored = old ++ [point]))
  /\ (forall datas points,
        length datas = 200%nat ->
        mapM new_data_point datas = Ok points ->
        save_all datas NoFile = JsonFile (JList (drop 32 points))
        /\ length (drop 32 points) = 168%nat).
Proof.
  intros Hold Hpoint. split.
  - exists (last_168 (old ++ [point])).
    split; [by apply save_price_data_list|]. split; [done|].
    split; [apply length_last_168|]. split.
    + unfold last_168. rewrite length_app. cbn [length].
      replace (length old + 1 - 168)%nat with (length old - 167)%nat by lia.
      rewrite drop_app_le by lia. apply last_snoc.
    + intros Hlen. apply last_168_short. rewrite length_app. cbn [length]. lia.
  - intros datas points Hlen Hpoints.
    pose proof (length_mapM_points _ _ Hpoints) as Hlen'. rewrite Hlen in Hlen'.
    split; [|rewrite length_drop; lia].
    destruct datas as [|d datas]; [discriminate Hlen|].
    cbn [mapM] in Hpoints.
    destruct (new_data_point d) as [p|] eqn:Hp; [|discriminate].
    unfold_bind.
    destruct (mapM new_data_point datas) as [ps|] eqn:Hps; [|discriminate].
    injection Hpoints as <-.
    rewrite (save_all_from_empty _ _ _ _ Hp Hps).
    unfold last_168. rewrite Hlen'. done.
Qed.

(** C9. [get_price_history] returns the stored value as it is when the file
    exists and decodes, the empty list when there is no file, and the empty
    list again, raising nothing, when the file cannot be read or decoded. *)
Theorem get_price_history_cases :
  (forall v, get_price_history (JsonFile v) = v)
  /\ get_price_history NoFile = JList []
  /\ (forall fs e,
        path_exists fs = true -> load_json fs = Raise e ->
        get_price_history fs = JList [])
  /\ get_price_history Garbled = JList []
  /\ get_price_history Unreadable = JList [].
Proof.
  repeat split.
  intros fs e Hexists Hload. unfold get_price_history. by rewrite Hexists, Hload.
Qed.

(** C3 (as amended). A call that fails returns [False] instead of raising.
    It fails exactly when the point cannot be built or appended, or when a
    fault hits the write. The file is left as it was when the failure comes
    before the write or at the opening of the file; a fault while the text is
    being written leaves a file that is not JSON, so the history stored
    before is gone. *)
Theorem save_price_data_failure (fault : write_fault) (fs : file_state) (data : dict) :
  let fs' := fst (save_price_data fault fs data) in
  let ok := snd (save_price_data fault fs data) in
  (ok = false <-> is_ok (history_to_save fs data) = false \/ fault <> NoFault)
  /\ (is_ok (history_to_save fs data) = false -> fs' = fs)
  /\ (fault = OpenFault -> fs' = fs)
  /\ (forall e, fault = DumpFault e -> is_ok (history_to_save fs data) = true ->
        fs' = Garbled /\ ok = false /\ get_price_history fs' = JList []).
Proof.
  cbn zeta. unfold save_price_data.
  destruct (history_to_save fs data) as [history|e]; cbn [is_ok].
  - destruct fault; cbn; repeat split; try done; try (intros [?|?]; done);
      try (intros; by right); try (intros ? [= <-]; done).
  - cbn. repeat split; try done; intros; by left.
Qed.

(** ** The windowed export *)

Section ExportProperties.

Variable py_repr : json -> string.
Variable strptime : string -> option Z.

Lemma insert_row_perm r rows : insert_row r rows ≡ₚ r :: rows.
Proof.
  induction rows as [|r' rows IH]; cbn [insert_row]; [done|].
  destruct (String.leb (Timestamp r) (Timestamp r')); [done|].
  rewrite IH. apply Permutation_swap.
Qed.

Lemma sort_rows_perm rows : sort_rows rows ≡ₚ rows.
Proof.
  induction rows as [|r rows IH]; cbn [sort_rows foldr]; [done|].
  rewrite insert_row_perm. by constructor.
Qed.

Lemma timestamp_present_iff data rows :
  timestamp_present py_repr data rows = true
  <-> exists r, r ∈ rows /\ Timestamp r = py_str py_repr (dict_get data "timestamp" JNull).
Proof.
  unfold timestamp_present. rewrite existsb_exists. split.
  - intros (r & Hin & Heq). exists r. split; [by apply list_elem_of_In|].
    by apply String.eqb_eq.
  - intros (r & Hin & Heq). exists r. split; [by apply list_elem_of_In|].
    by apply String.eqb_eq.
Qed.

Lemma keeps_hour now r :
  keeps strptime "hour" now r = in_window strptime hour_us now r.
Proof.
  unfold keeps, in_window. destruct (strptime (Timestamp r)); [|done].
  cbn. by destruct (now - hour_us <=? z)%Z.
Qed.

Lemma keeps_other period now r :
  period <> "hour" -> period <> "day" -> period <> "month" ->
  keeps strptime period now r = unparseable strptime r.
Proof.
  intros Hh Hd Hm. unfold keeps, unparseable.
  destruct (strptime (Timestamp r)); [|done].
  apply String.eqb_neq in Hh, Hd, Hm. by rewrite Hh, Hd, Hm.
Qed.

(** The statements after line 90, had [datetime] been bound there. *)
Lemma export_body_bound stamp now fs data time_period book :
  export_body py_repr strptime Bound stamp now fs data time_period = Ok book ->
  exists history,
    py_iter (get_price_history fs) = Ok history
    /\ historical_data book
       = let rows := sort_rows (add_current py_repr data (history_rows py_repr history)) in
         match time_period with
         | Some period =>
             if truthy time_period then List.filter (keeps strptime period now) rows
             else rows
         | None => rows
         end.
Proof.
  unfold export_body. cbn [use_local]. unfold_bind.
  destruct (py_iter (dict_get data "buy_offers" (JList []))); [|discriminate].
  destruct (py_iter (dict_get data "sell_offers" (JList []))); [|discriminate].
  unfold_bind.
  destruct (py_iter (get_price_history fs)) as [history|]; [|discriminate].
  unfold_bind. intros Hbook. exists history. split; [done|].
  destruct time_period as [period|]; [destruct (truthy (Some period))|];
    unfold_bind; by injection Hbook as <-.
Qed.

(** Had line 90 passed, the hour window would hold the rows that parse and
    are not older than an hour, and those that do not parse. *)
Lemma bound_last_hour_window stamp now fs data book :
  export_body py_repr strptime Bound stamp now fs data (Some "hour") = Ok book ->
  exists history,
    py_iter (get_price_history fs) = Ok history
    /\ historical_data book
       = List.filter (in_window strptime hour_us now)
           (sort_rows (add_current py_repr data (history_rows py_repr history))).
Proof.
  intros Hbook. apply export_body_bound in Hbook as (history & Hhist & ->).
  exists history. split; [done|]. cbn. apply filter_ext. intros r. apply keeps_hour.
Qed.

(** Had line 90 passed, the current point would be added exactly when no
    stored row has its timestamp. *)
Lemma bound_current_point_added_once stamp now fs data book v :
  dict_lookup data "timestamp" = Some v ->
  export_body py_repr strptime Bound stamp now fs data None = Ok book ->
  exists history,
    py_iter (get_price_history fs) = Ok history
    /\ let ts := py_str py_repr v in
       let stored := history_rows py_repr history in
       ((exists r, r ∈ stored /\ Timestamp r = ts) -> historical_data book ≡ₚ stored)
       /\ ((forall r, r ∈ stored -> Timestamp r <> ts) ->
             historical_data book ≡ₚ stored ++ [current_row py_repr data]).
Proof.
  intros Hts Hbook. apply export_body_bound in Hbook as (history & Hhist & ->).
  exists history. split; [done|]. cbn zeta.
  assert (dict_get data "timestamp" JNull = v) as Hnull
    by (unfold dict_get; by rewrite Hts).
  rewrite sort_rows_perm. unfold add_current. split.
  - intros Hdup. rewrite (proj2 (timestamp_present_iff data _)); [done|].
    by rewrite Hnull.
  - intros Hnew.
    destruct (timestamp_present py_repr data _) eqn:Hpresent; [|done].
    apply timestamp_present_iff in Hpresent as (r & Hin & Heq).
    rewrite Hnull in Heq. by destruct (Hnew r Hin).
Qed.

(** Had line 90 passed, an unknown period would leave the rows whose
    timestamp does not parse. *)
Lemma bound_unknown_period stamp now fs data period book :
  period <> "" -> period <> "hour" -> period <> "day" -> period <> "month" ->
  export_body py_repr strptime Bound stamp now fs data (Some period) = Ok book ->
  exists history,
    py_iter (get_price_history fs) = Ok history
    /\ historical_data book
       = List.filter (unparseable strptime)
           (sort_rows (add_current py_repr data (history_rows py_repr history))).
Proof.
  intros Hne Hh Hd Hm Hbook.
  apply export_body_bound in Hbook as (history & Hhist & ->).
  exists history. split; [done|]. cbn [truthy].
  apply String.eqb_neq in Hne. rewrite Hne. cbn [negb].
  apply filter_ext. intros r. by apply keeps_other.
Qed.

(** C6 (a defect of the code). With the period ['hour'], whatever the
    history, the snapshot and the clock, [save_price_data_as_excel] builds no
    sheet: it raises [UnboundLocalError] at its first use of [datetime], so no
    point is kept or left out. *)
Theorem last_hour_export_raises
    (stamp : string) (now : Z) (excel : excel_outcome) (fs : file_state) (data : dict) :
  save_price_data_as_excel py_repr strptime false stamp now excel fs data (Some "hour")
  = Raise UnboundLocalError.
Proof. reflexivity. Qed.

(** C7 (a defect of the code). With no period, [save_price_data_as_excel]
    raises [UnboundLocalError] before any row is built, be the snapshot's
    timestamp in the history or not: there is no historical sheet to hold the
    current point once, twice or not at all. *)
Theorem export_without_period_raises
    (stamp : string) (now : Z) (excel : excel_outcome) (fs : file_state) (data : dict) :
  save_price_data_as_excel py_repr strptime false stamp now excel fs data None
  = Raise UnboundLocalError.
Proof. reflexivity. Qed.

End ExportProperties.

Section ExportRoute.

Variable fos : string -> option float.
Variable py_repr : json -> string.
Variable strptime : string -> option Z.

Lemma download_excel_raises w makedirs_raises stamp now excel fs args n :
  exists e,
    download_excel fos py_repr strptime w makedirs_raises stamp now excel fs args n
    = {| status_code := 500; payload_of := Raise e |}.
Proof.
  unfold download_excel, json_route, io_bind, lift, io_ret.
  destruct (fetch_latest_binance_data fos w "USDT" "SDG" n) as [[data|e] n'];
    [|by exists e].
  unfold save_price_data_as_excel. destruct makedirs_raises; by eexists.
Qed.

(** C10 (a defect of the code). With a period that is none of ['hour'],
    ['day'], ['month'], as with any other, [save_price_data_as_excel] raises
    [UnboundLocalError] and [/api/download-excel] answers 500: nothing is
    exported, silently or otherwise. *)
Theorem unknown_period_export_raises
    (w : world) (stamp : string) (now : Z) (excel : excel_outcome)
    (fs : file_state) (data : dict) (period : string) (n : nat) :
  save_price_data_as_excel py_repr strptime false stamp now excel fs data (Some period)
  = Raise UnboundLocalError
  /\ status_code (download_excel fos py_repr strptime w false stamp now excel fs
                    [("period", period)] n) = 500.
Proof.
  split; [reflexivity|].
  by destruct (download_excel_raises w false stamp now excel fs [("period", period)] n)
    as [e ->].
Qed.

End ExportRoute.

(** * The properties at concrete inputs *)

(** ** Where the code departs from the specification *)

(** C2, as stated, fails: a merchant's listing whose quantity is the text
    [n/a] is eligible in the specification's terms (quantity counted as 0,
    kept as a merchant's), but the filter raises [ValueError]. *)
Lemma filter_offers_unparsable_quantity :
  List.filter (eligible float_of_digits) [unparsable_listing] = [unparsable_listing]
  /\ filter_offers float_of_digits [unparsable_listing] = Raise ValueError
  /\ filter_offers float_of_digits [unparsable_listing]
     <> Ok (List.filter (eligible float_of_digits) [unparsable_listing]).
Proof. vm_compute. repeat split. discriminate. Qed.

(** C3, as stated, fails: a fault while the text is written makes the call
    return [False], and the file that held one point is no longer JSON; the
    next read gives the empty list. *)
Lemma save_price_data_dump_fault :
  let before := JsonFile (JList [point_at 0]) in
  let after := save_price_data (DumpFault OSError) before (snapshot_at 1) in
  snd after = false
  /\ fst after = Garbled
  /\ fst after <> before
  /\ get_price_history before = JList [point_at 0]
  /\ get_price_history (fst after) = JList [].
Proof. cbn. repeat split. discriminate. Qed.

(** C4, as stated, fails: a 200 answer without the [data] field gives the
    empty list, not a failure; and a 304 answer, which is not 2xx, gives its
    listings, not a transport error. *)
Lemma fetch_binance_p2p_data_without_data :
  fetch_binance_p2p_data world_without_data "USDT" "SDG" "BUY" 20 0%nat
  = (Ok (JList []), 1%nat)
  /\ fetch_binance_p2p_data world_not_modified "USDT" "SDG" "BUY" 20 0%nat
     = (Ok (JList scenario_listings), 1%nat).
Proof. split; reflexivity. Qed.

(** ** The theorems at work *)

Lemma new_data_points_at (indices : list nat) :
  mapM new_data_point (map snapshot_at indices) = Ok (map point_at indices).
Proof.
  induction indices as [|i indices IH]; [done|].
  cbn [map mapM]. rewrite IH. reflexivity.
Qed.

Lemma save_price_data_keeps_last_168_witness :
  get_price_history (JsonFile (JList [point_at 0])) = JList [point_at 0]
  /\ new_data_point (snapshot_at 1) = Ok (point_at 1)
  /\ save_price_data NoFault (JsonFile (JList [point_at 0])) (snapshot_at 1)
     = (JsonFile (JList [point_at 0; point_at 1]), true)
  /\ save_all (map snapshot_at (seq 0 200)) NoFile
     = JsonFile (JList (map point_at (seq 32 168))).
Proof.
  split; [reflexivity|]. split; [reflexivity|].
  destruct (save_price_data_keeps_last_168 (JsonFile (JList [point_at 0]))
              [point_at 0] (snapshot_at 1) (point_at 1) eq_refl eq_refl)
    as [(stored & Hsave & Hstored & _) Hrun].
  split.
  - rewrite Hsave, Hstored. reflexivity.
  - destruct (Hrun (map snapshot_at (seq 0 200)) (map point_at (seq 0 200))
                eq_refl (new_data_points_at _)) as [-> _].
    reflexivity.
Defined.

Lemma filter_offers_keeps_eligible_witness :
  Forall (fun o => is_ok (offer_passes float_of_digits o) = true) scenario_listings
  /\ filter_offers float_of_digits scenario_listings = Ok scenario_listings
  /\ filter_offers float_of_digits (scenario_listings ++ [unparsable_listing])
     = Raise ValueError.
Proof.
  assert (Forall (fun o => is_ok (offer_passes float_of_digits o) = true)
            scenario_listings) as Hall
    by (repeat constructor).
  split; [exact Hall|].
  destruct (filter_offers_keeps_eligible float_of_digits scenario_listings Hall)
    as (Hfilter & _ & Hraise & _).
  split.
  - rewrite Hfilter. reflexivity.
  - apply Hraise. reflexivity.
Defined.

Lemma save_price_data_failure_witness :
  let before := JsonFile (JList [point_at 0]) in
  snd (save_price_data OpenFault before (snapshot_at 1)) = false
  /\ fst (save_price_data OpenFault before (snapshot_at 1)) = before
  /\ fst (save_price_data (DumpFault OSError) before (snapshot_at 1)) = Garbled.
Proof.
  cbn zeta.
  destruct (save_price_data_failure OpenFault (JsonFile (JList [point_at 0]))
              (snapshot_at 1)) as (Hfail & _ & Hopen & _).
  destruct (save_price_data_failure (DumpFault OSError) (JsonFile (JList [point_at 0]))
              (snapshot_at 1)) as (_ & _ & _ & Hdump).
  split; [|split].
  - apply Hfail. right. discriminate.
  - apply Hopen. reflexivity.
  - apply (Hdump OSError); reflexivity.
Defined.

Lemma fetch_binance_p2p_data_outcomes_witness :
  ~ (400 <= 304 < 600)%Z
  /\ fst (fetch_binance_p2p_data world_not_modified "USDT" "SDG" "BUY" 20 0%nat)
     = Ok (JList scenario_listings).
Proof.
  assert (~ (400 <= 304 < 600)%Z) as Hstatus by lia.
  split; [exact Hstatus|].
  destruct (fetch_binance_p2p_data_outcomes world_not_modified "USDT" "SDG" "BUY" 20 0%nat)
    as [_ Hdata].
  apply (Hdata 304%Z [("data", JList scenario_listings)] eq_refl Hstatus).
Defined.

Lemma fetch_multi_asset_data_isolates_failures_witness :
  exists res n',
    fetch_multi_asset_data_for float_of_digits world_btc_down ["USDT"; "BTC"] 0%nat
    = (Ok res, n')
    /\ assets_data res !! "BTC" = Some (empty_data "2025-01-01 12:00:00" "BTC" "SDG")
    /\ exists usdt, assets_data res !! "USDT" = Some usdt
                    /\ dict_lookup usdt "buy_price" = Some (JFloat 605%float).
Proof.
  destruct (fetch_multi_asset_data_isolates_failures float_of_digits world_btc_down
              ["USDT"; "BTC"] 0%nat) as (res & n' & Hrun & _ & Hassets & _).
  exists res, n'. split; [exact Hrun|]. split.
  - destruct (Hassets "BTC" ltac:(set_solver)) as [k Hk]. exact Hk.
  - destruct (Hassets "USDT" ltac:(set_solver)) as [k Hk].
    eexists. split; [exact Hk|]. reflexivity.
Defined.

Lemma calculate_average_price_mean_witness :
  scenario_listings <> []
  /\ mapM (offer_price float_of_digits) scenario_listings = Ok [600%float; 610%float]
  /\ float_of_int (Z.of_nat (length scenario_listings)) = Ok 2%float
  /\ calculate_average_price float_of_digits scenario_listings
     = Ok (JFloat (arithmetic_mean [600%float; 610%float] 2%float))
  /\ arithmetic_mean [600%float; 610%float] 2%float = 605%float.
Proof.
  assert (scenario_listings <> []) as Hne by discriminate.
  split; [exact Hne|]. split; [reflexivity|]. split; [reflexivity|].
  destruct (calculate_average_price_mean float_of_digits) as (_ & Hmean & _).
  split; [|reflexivity].
  apply (Hmean scenario_listings [600%float; 610%float] 2%float Hne);
    reflexivity.
Defined.

Lemma get_price_history_cases_witness :
  path_exists Garbled = true
  /\ load_json Garbled = Raise JSONDecodeError
  /\ get_price_history Garbled = JList []
  /\ get_price_history (JsonFile (JList [point_at 0])) = JList [point_at 0].
Proof.
  destruct get_price_history_cases as (Hfile & _ & Hbad & _).
  split; [reflexivity|]. split; [reflexivity|]. split.
  - apply (Hbad Garbled JSONDecodeError); reflexivity.
  - apply Hfile.
Defined.

(** * More of the code *)

(** ** The filter and the average *)

Section MoreBinanceApi.

Variable fos : string -> option float.

Lemma filter_offers_from_inv offers : forall acc kept,
  for_each (filter_step fos) offers acc = Ok kept ->
  Forall (fun o => is_ok (offer_passes fos o) = true) offers
  /\ kept = acc ++ List.filter (eligible fos) offers.
Proof.
  induction offers as [|o offers IH]; intros acc kept; cbn [for_each List.filter].
  - intros [= <-]. split; [constructor|by rewrite app_nil_r].
  - destruct (offer_passes fos o) as [b|e] eqn:Hb.
    + rewrite (filter_step_ok _ _ _ _ Hb), (offer_passes_eligible _ _ _ Hb).
      unfold_bind. intros Hrun. apply IH in Hrun as [Hall ->].
      split; [constructor; [by rewrite Hb|done]|].
      destruct b; [|done]. by rewrite <- app_assoc.
    + rewrite (filter_step_raises _ _ _ _ Hb). discriminate.
Qed.

Lemma filter_offers_inv offers kept :
  filter_offers fos offers = Ok kept ->
  Forall (fun o => is_ok (offer_passes fos o) = true) offers
  /\ kept = List.filter (eligible fos) offers.
Proof. intros Hrun. by apply filter_offers_from_inv in Hrun. Qed.

Lemma sublist_List_filter {A} (f : A -> bool) (l : list A) :
  List.filter f l `sublist_of` l.
Proof.
  induction l as [|x l IH]; cbn [List.filter]; [constructor|].
  destruct (f x); by constructor.
Qed.

Lemma List_filter_idem {A} (f : A -> bool) (l : list A) :
  List.filter f (List.filter f l) = List.filter f l.
Proof.
  induction l as [|x l IH]; [done|]. cbn [List.filter].
  destruct (f x) eqn:Hx; [|done]. cbn [List.filter]. by rewrite Hx, IH.
Qed.

Lemma offer_passes_verdict o :
  is_ok (offer_passes fos o) = true -> offer_passes fos o = Ok (eligible fos o).
Proof.
  destruct (offer_passes fos o) as [b|e] eqn:Hb; [|discriminate].
  intros _. by rewrite (offer_passes_eligible _ _ _ Hb).
Qed.

(** X1. What [filter_offers] returns is a sublist of its input, in the same
    order; every listing kept passes the test and every listing left out
    fails it; and filtering again changes nothing. *)
Theorem filter_offers_sublist_idempotent (offers kept : list json) :
  filter_offers fos offers = Ok kept ->
  kept `sublist_of` offers
  /\ (forall o, o ∈ kept -> offer_passes fos o = Ok true)
  /\ (forall o, o ∈ offers -> o ∉ kept -> offer_passes fos o = Ok false)
  /\ filter_offers fos kept = Ok kept.
Proof.
  intros Hrun. apply filter_offers_inv in Hrun as [Hall ->].
  rewrite Forall_forall in Hall.
  split; [apply sublist_List_filter|]. split; [|split].
  - intros o Hin. apply list_elem_of_In, filter_In in Hin as [Hin Hel].
    apply list_elem_of_In in Hin. by rewrite (offer_passes_verdict _ (Hall o Hin)), Hel.
  - intros o Hin Hout. rewrite (offer_passes_verdict _ (Hall o Hin)).
    destruct (eligible fos o) eqn:Hel; [|done].
    destruct Hout. apply list_elem_of_In, filter_In. split; [|done].
    by apply list_elem_of_In.
  - unfold filter_offers. rewrite filter_offers_from.
    + by rewrite List_filter_idem.
    + apply Forall_forall. intros o Hin.
      apply list_elem_of_In, filter_In in Hin as [Hin _].
      apply Hall. by apply list_elem_of_In.
Qed.

Lemma filter_offers_acc offers : forall acc,
  for_each (filter_step fos) offers acc
  = kept ← filter_offers fos offers; Ok (acc ++ kept).
Proof.
  unfold filter_offers.
  induction offers as [|o offers IH]; intros acc; cbn [for_each].
  - unfold_bind. by rewrite app_nil_r.
  - destruct (offer_passes fos o) as [b|e] eqn:Hb.
    + rewrite !(filter_step_ok _ _ _ _ Hb). unfold_bind.
      rewrite (IH (if b then acc ++ [o] else acc)), (IH (if b then [] ++ [o] else [])).
      destruct (for_each (filter_step fos) offers []) as [kept|e]; [|done].
      unfold_bind. destruct b; [|done]. by rewrite <- app_assoc.
    + by rewrite !(filter_step_raises _ _ _ _ Hb).
Qed.

Lemma for_each_app {A B} (body : B -> A -> result B) (xs ys : list A) : forall acc,
  for_each body (xs ++ ys) acc = acc' ← for_each body xs acc; for_each body ys acc'.
Proof.
  induction xs as [|x xs IH]; intros acc; cbn [app for_each]; [done|].
  destruct (body acc x) as [acc'|e]; [|done]. unfold_bind. apply IH.
Qed.

(** X2. Filtering a concatenation is filtering its two parts and
    concatenating, failures included: the first part that raises decides. *)
Theorem filter_offers_app (first second : list json) :
  filter_offers fos (first ++ second)
  = kept1 ← filter_offers fos first;
    kept2 ← filter_offers fos second;
    Ok (kept1 ++ kept2).
Proof.
  unfold filter_offers at 1. rewrite for_each_app.
  fold (filter_offers fos first).
  destruct (filter_offers fos first) as [kept1|e]; [|done].
  unfold_bind. apply filter_offers_acc.
Qed.

Lemma add_price_total total p :
  running_total total -> exists t, add_price total p = Ok (JFloat t).
Proof. intros [->|[t ->]]; by eexists. Qed.

Lemma total_price_ok offers : forall total,
  running_total total ->
  Forall (fun o => is_ok (offer_price fos o) = true) offers ->
  exists total', for_each (price_step fos) offers total = Ok total'
                 /\ running_total total'.
Proof.
  induction offers as [|o offers IH]; intros total Htotal Hall; cbn [for_each].
  - by exists total.
  - apply Forall_cons in Hall as [Ho Hall].
    destruct (offer_price fos o) as [p|e] eqn:Hp; [|discriminate Ho].
    rewrite (price_step_ok _ _ _ _ Hp).
    destruct (add_price_total total p Htotal) as [t ->]. unfold_bind.
    apply IH; [|done]. right. by exists t.
Qed.

(** X3. [calculate_average_price] has no handler: the first offer whose price
    cannot be read makes it raise that offer's exception, whatever comes
    before or after; an offer that is not an object raises
    [AttributeError]. *)
Theorem calculate_average_price_raises (before after : list json) (o : json) (e : exn) :
  Forall (fun o => is_ok (offer_price fos o) = true) before ->
  offer_price fos o = Raise e ->
  calculate_average_price fos (before ++ o :: after) = Raise e
  /\ (is_dict o = false -> e = AttributeError).
Proof.
  intros Hall Ho. split.
  - unfold calculate_average_price.
    destruct (before ++ o :: after) as [|x xs] eqn:Hlist.
    { by destruct before. }
    rewrite <- Hlist, for_each_app.
    destruct (total_price_ok before (JInt 0) ltac:(by left) Hall) as (total & -> & _).
    unfold_bind. cbn [for_each].
    assert (price_step fos total o = Raise e) as ->
      by (unfold price_step; by rewrite Ho).
    done.
  - intros Hdict. destruct o; try discriminate Hdict; cbn in Ho; congruence.
Qed.

(** ** The snapshot composer *)

Lemma fetch_binance_p2p_data_one_event w asset fiat trade_type rows n :
  snd (fetch_binance_p2p_data w asset fiat trade_type rows n) = S n.
Proof.
  unfold fetch_binance_p2p_data, try_except, io_bind, post, lift, io_ret.
  destruct (http w n _) as [|status body]; [done|].
  destruct (raise_for_status status); [|done].
  destruct body as [result|]; [|done].
  destruct (py_in "data" result) as [[]|]; [|done..].
  by destruct (py_item result "data").
Qed.

Lemma fetch_binance_p2p_data_pair w asset fiat trade_type rows n :
  fetch_binance_p2p_data w asset fiat trade_type rows n
  = (fst (fetch_binance_p2p_data w asset fiat trade_type rows n), S n).
Proof.
  rewrite <- (fetch_binance_p2p_data_one_event w asset fiat trade_type rows n).
  by destruct (fetch_binance_p2p_data w asset fiat trade_type rows n).
Qed.

Lemma calculate_average_price_kind offers v :
  calculate_average_price fos offers = Ok v ->
  (offers = [] /\ v = JInt 0) \/ (offers <> [] /\ exists f, v = JFloat f).
Proof.
  unfold calculate_average_price. destruct offers as [|o offers].
  - intros [= <-]. by left.
  - destruct (for_each _ _ _) as [total|]; [|discriminate]. unfold_bind.
    unfold py_truediv_int. destruct total; try discriminate.
    destruct (float_of_int _); [|discriminate]. unfold_bind.
    intros [= <-]. right. split; [done|]. by eexists.
Qed.

Lemma py_sub_prices offers1 offers2 v1 v2 :
  calculate_average_price fos offers1 = Ok v1 ->
  calculate_average_price fos offers2 = Ok v2 ->
  exists spread, py_sub v2 v1 = Ok spread
    /\ (spread = JInt 0 \/ exists f, spread = JFloat f).
Proof.
  intros H1 H2.
  apply calculate_average_price_kind in H1 as [[_ ->]|[_ [f1 ->]]];
    apply calculate_average_price_kind in H2 as [[_ ->]|[_ [f2 ->]]];
    eexists; (split; [reflexivity|]); first [by left|right; by eexists].
Qed.

(** What a successful run of [fetch_latest_binance_data] went through. *)
Lemma fetch_latest_binance_data_inv w asset fiat n data n' :
  fetch_latest_binance_data fos w asset fiat n = (Ok data, n') ->
  exists buy_offers sell_offers buy_list sell_list filtered_buy filtered_sell
         avg_buy avg_sell spread,
    fst (fetch_binance_p2p_data w asset fiat "BUY" 20 n) = Ok buy_offers
    /\ fst (fetch_binance_p2p_data w asset fiat "SELL" 20 (S n)) = Ok sell_offers
    /\ py_iter buy_offers = Ok buy_list
    /\ py_iter sell_offers = Ok sell_list
    /\ filter_offers fos buy_list = Ok filtered_buy
    /\ filter_offers fos sell_list = Ok filtered_sell
    /\ calculate_average_price fos filtered_buy = Ok avg_buy
    /\ calculate_average_price fos filtered_sell = Ok avg_sell
    /\ py_sub avg_sell avg_buy = Ok spread
    /\ n' = S (S (S n))
    /\ data =
       [ ("timestamp", JStr (clock w (S (S n))));
         ("asset", JStr asset);
         ("fiat", JStr fiat);
         ("buy_price", avg_buy);
         ("sell_price", avg_sell);
         ("spread", spread);
         ("buy_offers_count", JInt (Z.of_nat (length filtered_buy)));
         ("sell_offers_count", JInt (Z.of_nat (length filtered_sell)));
         ("buy_offers", JList (take 5 filtered_buy));
         ("sell_offers", JList (take 5 filtered_sell)) ].
Proof.
  unfold fetch_latest_binance_data, io_bind at 1.
  rewrite (fetch_binance_p2p_data_pair w asset fiat "BUY").
  destruct (fst (fetch_binance_p2p_data w asset fiat "BUY" 20 n))
    as [buy_offers|]; [|discriminate].
  unfold io_bind at 1.
  rewrite (fetch_binance_p2p_data_pair w asset fiat "SELL").
  destruct (fst (fetch_binance_p2p_data w asset fiat "SELL" 20 (S n)))
    as [sell_offers|]; [|discriminate].
  unfold io_bind, lift, io_ret, now_string.
  destruct (py_iter buy_offers) as [buy_list|] eqn:Hbl; [|discriminate].
  unfold_bind.
  destruct (filter_offers fos buy_list) as [filtered_buy|] eqn:Hfb; [|discriminate].
  destruct (py_iter sell_offers) as [sell_list|] eqn:Hsl; [|discriminate].
  unfold_bind.
  destruct (filter_offers fos sell_list) as [filtered_sell|] eqn:Hfs; [|discriminate].
  destruct (calculate_average_price fos filtered_buy) as [avg_buy|] eqn:Hab;
    [|discriminate].
  destruct (calculate_average_price fos filtered_sell) as [avg_sell|] eqn:Has;
    [|discriminate].
  destruct (py_sub avg_sell avg_buy) as [spread|] eqn:Hsp; [|discriminate].
  intros [= <- <-].
  by exists buy_offers, sell_offers, buy_list, sell_list, filtered_buy, filtered_sell,
    avg_buy, avg_sell, spread.
Qed.

Lemma latest_events_cases w asset fiat n :
  let run := fetch_latest_binance_data fos w asset fiat n in
  let buy := fetch_binance_p2p_data w asset fiat "BUY" 20 n in
  match fst run with
  | Ok data =>
      snd run = S (S (S n))
      /\ dict_lookup data "timestamp" = Some (JStr (clock w (S (S n))))
  | Raise e =>
      if is_ok (fst buy) then snd run = S (S n)
      else snd run = S n /\ fst buy = Raise e
  end.
Proof.
  cbn zeta.
  destruct (fetch_latest_binance_data fos w asset fiat n) as [[data|e] n'] eqn:Hrun;
    cbn [fst snd].
  - apply fetch_latest_binance_data_inv in Hrun
      as (? & ? & ? & ? & ? & ? & ? & ? & ? & _ & _ & _ & _ & _ & _ & _ & _ & _ & -> & ->).
    done.
  - revert Hrun. unfold fetch_latest_binance_data, io_bind at 1.
    rewrite (fetch_binance_p2p_data_pair w asset fiat "BUY").
    destruct (fst (fetch_binance_p2p_data w asset fiat "BUY" 20 n))
      as [buy_offers|e']; cbn [is_ok]; [|by intros [= <- <-]].
    unfold io_bind at 1.
    rewrite (fetch_binance_p2p_data_pair w asset fiat "SELL").
    destruct (fst (fetch_binance_p2p_data w asset fiat "SELL" 20 (S n)))
      as [sell_offers|]; [|by intros [= _ <-]].
    unfold io_bind, lift, io_ret, now_string.
    destruct (py_iter buy_offers ≫= filter_offers fos) as [filtered_buy|];
      [|by intros [= _ <-]].
    destruct (py_iter sell_offers ≫= filter_offers fos) as [filtered_sell|];
      [|by intros [= _ <-]].
    destruct (calculate_average_price fos filtered_buy) as [avg_buy|] eqn:Hab;
      [|by intros [= _ <-]].
    destruct (calculate_average_price fos filtered_sell) as [avg_sell|] eqn:Has;
      [|by intros [= _ <-]].
    destruct (py_sub_prices _ _ _ _ Hab Has) as (spread & -> & _).
    discriminate.
Qed.

(** X4. [fetch_latest_binance_data] asks for the BUY side, then the SELL
    side, then reads the clock. If the BUY request fails, the run fails with
    that exception after this one event: no SELL request is made. If the SELL
    request fails, the run fails with its exception after the two requests.
    Any other failure also comes after the two requests and before the clock
    is read. A success has had both requests answered, has used exactly the
    three events and is stamped with the third. *)
Theorem fetch_latest_binance_data_events (w : world) (asset fiat : string) (n : nat) :
  let run := fetch_latest_binance_data fos w asset fiat n in
  let buy := fst (fetch_binance_p2p_data w asset fiat "BUY" 20 n) in
  let sell := fst (fetch_binance_p2p_data w asset fiat "SELL" 20 (S n)) in
  (forall e, buy = Raise e -> run = (Raise e, S n))
  /\ (forall e, is_ok buy = true -> sell = Raise e -> run = (Raise e, S (S n)))
  /\ (forall e, fst run = Raise e -> is_ok buy = true -> snd run = S (S n))
  /\ (forall data, fst run = Ok data ->
        snd run = S (S (S n))
        /\ dict_lookup data "timestamp" = Some (JStr (clock w (S (S n))))
        /\ is_ok buy = true /\ is_ok sell = true).
Proof.
  cbn zeta. split; [|split; [|split]].
  - intros e Hbuy. unfold fetch_latest_binance_data, io_bind at 1.
    by rewrite (fetch_binance_p2p_data_pair w asset fiat "BUY"), Hbuy.
  - intros e Hbuy Hsell. unfold fetch_latest_binance_data, io_bind at 1.
    rewrite (fetch_binance_p2p_data_pair w asset fiat "BUY").
    destruct (fst (fetch_binance_p2p_data w asset fiat "BUY" 20 n)); [|discriminate].
    unfold io_bind at 1.
    by rewrite (fetch_binance_p2p_data_pair w asset fiat "SELL"), Hsell.
  - intros e Hrun Hbuy. pose proof (latest_events_cases w asset fiat n) as Hcases.
    cbn zeta in Hcases. by rewrite Hrun, Hbuy in Hcases.
  - intros data Hrun.
    destruct (fetch_latest_binance_data fos w asset fiat n) as [r n'] eqn:Hfull.
    cbn [fst snd] in *. subst r.
    apply fetch_latest_binance_data_inv in Hfull
      as (? & ? & ? & ? & ? & ? & ? & ? & ? & -> & -> & _ & _ & _ & _ & _ & _ & _
          & -> & ->).
    done.
Qed.

Lemma filter_offers_kept_pass offers kept :
  filter_offers fos offers = Ok kept ->
  Forall (fun o => offer_passes fos o = Ok true) kept.
Proof.
  intros Hrun. apply filter_offers_inv in Hrun as [Hall ->].
  rewrite Forall_forall in Hall. apply Forall_forall. intros o Hin.
  apply list_elem_of_In, filter_In in Hin as [Hin Hel].
  apply list_elem_of_In in Hin. by rewrite (offer_passes_verdict _ (Hall o Hin)), Hel.
Qed.

Lemma filter_offers_again offers kept :
  filter_offers fos offers = Ok kept -> filter_offers fos kept = Ok kept.
Proof.
  intros Hrun. apply filter_offers_inv in Hrun as [Hall ->].
  unfold filter_offers. rewrite filter_offers_from; [by rewrite List_filter_idem|].
  rewrite Forall_forall in Hall. apply Forall_forall. intros o Hin.
  apply list_elem_of_In, filter_In in Hin as [Hin _]. apply Hall.
  by apply list_elem_of_In.
Qed.

Lemma side_of_listings data listings price_key count_key offers_key filtered avg :
  filter_offers fos listings = Ok filtered ->
  calculate_average_price fos filtered = Ok avg ->
  dict_lookup data count_key = Some (JInt (Z.of_nat (length filtered))) ->
  dict_lookup data offers_key = Some (JList (take 5 filtered)) ->
  dict_lookup data price_key = Some avg ->
  side_well_formed fos data listings price_key count_key offers_key.
Proof.
  intros Hfilter Havg Hcount Hoffers Hprice.
  apply filter_offers_inv in Hfilter as [_ ->].
  split; [done|]. split; [done|]. exists avg. split; [done|]. split; [done|].
  apply calculate_average_price_kind in Havg as [[? ?]|[? ?]]; [by left|by right].
Qed.

(** X5. Every snapshot that [fetch_latest_binance_data] returns is made from
    what the marketplace sent: on each side the count is the number of the
    listings received that pass the filter, the offers shown are the first
    five of these in the order received, and the price is their average, the
    integer 0 when none passes and a float otherwise; the spread is the sell
    price less the buy price; the asset and the fiat are those asked for. *)
Theorem fetch_latest_binance_data_snapshot
    (w : world) (asset fiat : string) (n n' : nat) (data : dict) :
  fetch_latest_binance_data fos w asset fiat n = (Ok data, n') ->
  exists buy_offers sell_offers buy_listings sell_listings,
    fst (fetch_binance_p2p_data w asset fiat "BUY" 20 n) = Ok buy_offers
    /\ fst (fetch_binance_p2p_data w asset fiat "SELL" 20 (S n)) = Ok sell_offers
    /\ py_iter buy_offers = Ok buy_listings
    /\ py_iter sell_offers = Ok sell_listings
    /\ side_well_formed fos data buy_listings "buy_price" "buy_offers_count" "buy_offers"
    /\ side_well_formed fos data sell_listings
         "sell_price" "sell_offers_count" "sell_offers"
    /\ (exists buy_price sell_price spread,
          dict_lookup data "buy_price" = Some buy_price
          /\ dict_lookup data "sell_price" = Some sell_price
          /\ dict_lookup data "spread" = Some spread
          /\ py_sub sell_price buy_price = Ok spread)
    /\ dict_lookup data "asset" = Some (JStr asset)
    /\ dict_lookup data "fiat" = Some (JStr fiat).
Proof.
  intros Hrun. apply fetch_latest_binance_data_inv in Hrun
    as (buy_offers & sell_offers & buy_list & sell_list & fb & fs & ab & as_ & spread
        & Hbuy & Hsell & Hbl & Hsl & Hfb & Hfs & Hab & Has & Hsp & _ & ->).
  exists buy_offers, sell_offers, buy_list, sell_list.
  split; [done|]. split; [done|]. split; [done|]. split; [done|].
  split; [apply (side_of_listings _ _ _ _ _ fb ab Hfb Hab); reflexivity|].
  split; [apply (side_of_listings _ _ _ _ _ fs as_ Hfs Has); reflexivity|].
  split; [by exists ab, as_, spread|]. done.
Qed.

(** X6. When both sides come back with no listing at all (an empty list, or
    an answer without the [data] field), the snapshot is the same zero-valued
    record that [fetch_multi_asset_data] stores for a failed asset, stamped
    with the time of composition. *)
Theorem fetch_latest_binance_data_empty (w : world) (asset fiat : string) (n : nat) :
  fst (fetch_binance_p2p_data w asset fiat "BUY" 20 n) = Ok (JList []) ->
  fst (fetch_binance_p2p_data w asset fiat "SELL" 20 (S n)) = Ok (JList []) ->
  fetch_latest_binance_data fos w asset fiat n
  = (Ok (empty_data (clock w (S (S n))) asset fiat), S (S (S n))).
Proof.
  intros Hbuy Hsell. unfold fetch_latest_binance_data, io_bind at 1.
  rewrite (fetch_binance_p2p_data_pair w asset fiat "BUY"), Hbuy.
  unfold io_bind at 1.
  rewrite (fetch_binance_p2p_data_pair w asset fiat "SELL"), Hsell.
  reflexivity.
Qed.

Lemma latest_events_bound w asset fiat n :
  (S n <= snd (fetch_latest_binance_data fos w asset fiat n) <= S (S (S n)))%nat.
Proof.
  pose proof (latest_events_cases w asset fiat n) as H.
  cbn zeta in H.
  destruct (fst (fetch_latest_binance_data fos w asset fiat n)).
  - destruct H as [-> _]. lia.
  - destruct (is_ok _); [|destruct H as [H _]]; rewrite H; lia.
Qed.

Lemma fetch_assets_keys_events (w : world) (timestamp fiat : string)
    (assets : list string) : forall (acc : gmap string dict) (n : nat),
  exists m n',
    fetch_assets fos w timestamp fiat assets acc n = (Ok m, n')
    /\ (forall key, is_Some (m !! key) <-> key ∈ assets \/ is_Some (acc !! key))
    /\ (n + length assets <= n' <= n + 3 * length assets)%nat.
Proof.
  induction assets as [|a rest IH]; intros acc n; cbn [fetch_assets].
  - exists acc, n. split; [done|]. split; [|cbn; lia].
    intros key. split; [by right|]. intros [Hin|?]; [|done].
    by apply elem_of_nil in Hin.
  - unfold io_bind at 1, try_except.
    pose proof (latest_events_bound w a fiat n) as Hevents.
    destruct (fetch_latest_binance_data fos w a fiat n) as [[data|e] n1];
      cbn [snd] in Hevents; unfold io_ret.
    + destruct (IH (<[a := data]> acc) n1) as (m & n' & -> & Hkeys & Hn).
      exists m, n'. split; [done|]. split; [|cbn [length]; lia].
      intros key. rewrite Hkeys, lookup_insert_is_Some, elem_of_cons.
      destruct (decide (a = key)) as [->|Hne]; intuition congruence.
    + destruct (IH (<[a := empty_data timestamp a fiat]> acc) n1)
        as (m & n' & -> & Hkeys & Hn).
      exists m, n'. split; [done|]. split; [|cbn [length]; lia].
      intros key. rewrite Hkeys, lookup_insert_is_Some, elem_of_cons.
      destruct (decide (a = key)) as [->|Hne]; intuition congruence.
Qed.

Lemma fetch_multi_asset_data_runs (w : world) (n : nat) :
  exists res n',
    fetch_multi_asset_data fos w n = (Ok res, n')
    /\ (forall key, is_Some (assets_data res !! key)
                    <-> key ∈ ["USDT"; "BTC"; "ETH"; "BNB"])
    /\ primary_asset res = "USDT"
    /\ (n + 5 <= n' <= n + 13)%nat.
Proof.
  unfold fetch_multi_asset_data, fetch_multi_asset_data_for, io_bind at 1, now_string.
  destruct (fetch_assets_keys_events w (clock w n) "SDG" ["USDT"; "BTC"; "ETH"; "BNB"]
              ∅ (S n)) as (m & n' & Hrun & Hkeys & Hn).
  exists {| ma_timestamp := clock w n; assets_data := m; primary_asset := "USDT" |}, n'.
  split; [unfold io_bind; by rewrite Hrun|]. split; [|split; [done|cbn in Hn; lia]].
  intros key. cbn [assets_data]. rewrite Hkeys. split; [|by left].
  intros [?|Hempty]; [done|]. rewrite lookup_empty in Hempty. by destruct Hempty.
Qed.

(** X7. [fetch_multi_asset_data] always returns, with an entry for each of
    USDT, BTC, ETH and BNB and for nothing else, the primary asset among
    them; it reads the clock once and issues, for each asset, between one and
    two requests and at most one more clock read. *)
Theorem fetch_multi_asset_data_entries (w : world) (n : nat) :
  exists res n',
    fetch_multi_asset_data fos w n = (Ok res, n')
    /\ (forall key, is_Some (assets_data res !! key)
                    <-> key ∈ ["USDT"; "BTC"; "ETH"; "BNB"])
    /\ is_Some (assets_data res !! primary_asset res)
    /\ (n + 5 <= n' <= n + 13)%nat.
Proof.
  destruct (fetch_multi_asset_data_runs w n) as (res & n' & Hrun & Hkeys & Hprimary & Hn).
  exists res, n'. split; [done|]. split; [done|]. split; [|done].
  rewrite Hprimary. apply Hkeys. apply list_elem_of_here.
Qed.

(** ** The routes *)

(** X8. [/api/multi-asset-data] never answers 500: whatever the marketplace
    does, the reply is 200 with an entry for each of the four assets. *)
Theorem get_multi_asset_data_always_200 (w : world) (n : nat) :
  status_code (get_multi_asset_data fos w n) = 200
  /\ exists res, payload_of (get_multi_asset_data fos w n) = Ok res
                 /\ forall key, key ∈ ["USDT"; "BTC"; "ETH"; "BNB"]
                                -> is_Some (assets_data res !! key).
Proof.
  unfold get_multi_asset_data, json_route.
  destruct (fetch_multi_asset_data_runs w n) as (res & n' & -> & Hkeys & _).
  cbn [fst status_code payload_of]. split; [done|].
  exists res. split; [done|]. intros key. apply Hkeys.
Qed.

(** X9. [/api/latest-data] answers 200 with a snapshot of the pair asked
    for, USDT and SDG when the query names none, and 500 with the exception
    exactly when composing the snapshot raises. *)
Theorem get_latest_data_reply (w : world) (args : list (string * string)) (n : nat) :
  let asset := args_get args "asset" "USDT" in
  let fiat := args_get args "fiat" "SDG" in
  let r := get_latest_data fos w args n in
  payload_of r = fst (fetch_latest_binance_data fos w asset fiat n)
  /\ (args = [] -> asset = "USDT" /\ fiat = "SDG")
  /\ match payload_of r with
     | Ok data =>
         status_code r = 200
         /\ dict_lookup data "asset" = Some (JStr asset)
         /\ dict_lookup data "fiat" = Some (JStr fiat)
     | Raise e => status_code r = 500
     end.
Proof.
  cbn zeta. unfold get_latest_data, json_route.
  destruct (fetch_latest_binance_data fos w _ _ n) as [[data|e] n'] eqn:Hrun;
    cbn [fst payload_of status_code].
  - split; [done|]. split; [by intros ->|]. split; [done|].
    apply fetch_latest_binance_data_inv in Hrun
      as (? & ? & ? & ? & ? & ? & ? & ? & ? & _ & _ & _ & _ & _ & _ & _ & _ & _ & _ & ->).
    done.
  - split; [done|]. split; [by intros ->|]. done.
Qed.

End MoreBinanceApi.

(** ** The polling script's fetch *)

(** X10. [fetch_data] answers every status other than 200 with an empty
    list, where [fetch_binance_p2p_data] raises on a 4xx or 5xx status; on a
    200 answer that is a JSON object the two return the same. *)
Theorem fetch_data_statuses
    (w : world) (asset fiat trade_type : string) (rows : Z) (n : nat)
    (status : Z) (body : option json) :
  http w n (search_payload asset fiat trade_type rows) = Response status body ->
  let request := search_payload asset fiat trade_type rows in
  (status <> 200 -> fetch_data w request n = (Ok (JList []), S n))
  /\ ((400 <= status < 600)%Z ->
        fst (fetch_binance_p2p_data w asset fiat trade_type rows n)
        = Raise (HTTPError status))
  /\ (status = 200 -> forall d, body = Some (JDict d) ->
        fetch_data w request n = fetch_binance_p2p_data w asset fiat trade_type rows n).
Proof.
  intros Hout. cbn zeta.
  unfold fetch_data, fetch_binance_p2p_data, try_except, io_bind, post, lift, io_ret.
  rewrite Hout. split; [|split].
  - intros Hne. apply Z.eqb_neq in Hne. by rewrite Hne.
  - intros Hst. by rewrite (raise_for_status_raises _ Hst).
  - intros -> d ->. cbn. unfold dict_has, dict_item, dict_get.
    by destruct (dict_lookup d "data").
Qed.

(** ** More of the rolling history store *)

Lemma history_to_save_inv fs data history :
  history_to_save fs data = Ok history ->
  exists old point,
    get_price_history fs = JList old
    /\ new_data_point data = Ok point
    /\ history = last_168 (old ++ [point]).
Proof.
  unfold history_to_save.
  destruct (new_data_point data) as [point|]; [|discriminate]. unfold_bind.
  destruct (get_price_history fs) as [| | | | |old|]; try discriminate.
  cbn [py_append]. unfold_bind. rewrite keep_last_168_last.
  intros [= <-]. by exists old, point.
Qed.

Lemma last_168_snoc old point :
  last_168 (old ++ [point]) = drop (length old - 167)%nat old ++ [point].
Proof.
  unfold last_168. rewrite length_app. cbn [length].
  replace (length old + 1 - 168)%nat with (length old - 167)%nat by lia.
  by rewrite drop_app_le by lia.
Qed.

Lemma save_price_data_success fault fs data :
  snd (save_price_data fault fs data) = true ->
  exists old point,
    get_price_history fs = JList old
    /\ new_data_point data = Ok point
    /\ fault = NoFault
    /\ fst (save_price_data fault fs data)
       = JsonFile (JList (drop (length old - 167)%nat old ++ [point])).
Proof.
  unfold save_price_data.
  destruct (history_to_save fs data) as [history|] eqn:Hsave; [|discriminate].
  apply history_to_save_inv in Hsave as (old & point & Hold & Hpoint & ->).
  destruct fault; cbn; try discriminate. intros _.
  exists old, point. by rewrite last_168_snoc.
Qed.

(** X11. A save that returns [True] can be read back: the file then holds a
    list of between 1 and 168 points whose last element is the point just
    saved, preceded by the most recent of the points stored before. *)
Theorem save_price_data_round_trip (fault : write_fault) (fs : file_state) (data : dict) :
  snd (save_price_data fault fs data) = true ->
  exists old point stored,
    get_price_history fs = JList old
    /\ new_data_point data = Ok point
    /\ get_price_history (fst (save_price_data fault fs data)) = JList stored
    /\ stored = drop (length old - 167)%nat old ++ [point]
    /\ last stored = Some point
    /\ (1 <= length stored <= 168)%nat.
Proof.
  intros Hok. apply save_price_data_success in Hok
    as (old & point & Hold & Hpoint & _ & ->).
  exists old, point, (drop (length old - 167)%nat old ++ [point]).
  split; [done|]. split; [done|]. split; [done|]. split; [done|].
  split; [apply last_snoc|]. rewrite length_app, length_drop. cbn [length]. lia.
Qed.

Lemma save_price_data_bounded fault fs data :
  bounded fs -> bounded (fst (save_price_data fault fs data)).
Proof.
  intros Hfs.
  destruct (snd (save_price_data fault fs data)) eqn:Hok.
  - apply save_price_data_success in Hok as (old & point & _ & _ & _ & ->).
    unfold bounded. cbn. rewrite length_app, length_drop. cbn [length]. lia.
  - revert Hok. unfold save_price_data.
    destruct (history_to_save fs data); [|done].
    destruct fault; cbn; [discriminate|done|]. intros _. unfold bounded. cbn. lia.
Qed.

(** X12. A history of at most 168 points stays one through any run of saves,
    whatever faults hit them and whatever data they are given. *)
Theorem save_run_bounded (steps : list (write_fault * dict)) (fs : file_state) :
  bounded fs -> bounded (save_run steps fs).
Proof.
  revert fs. induction steps as [|[fault data] steps IH]; intros fs Hfs; [done|].
  unfold save_run. cbn [foldl fst snd]. apply IH. by apply save_price_data_bounded.
Qed.

Lemma save_price_data_not_list v fault data :
  (forall l, v <> JList l) ->
  save_price_data fault (JsonFile v) data = (JsonFile v, false).
Proof.
  intros Hv. unfold save_price_data, history_to_save.
  destruct (new_data_point data); [|done]. unfold_bind.
  cbn [get_price_history path_exists load_json].
  destruct v; try done. by destruct (Hv l).
Qed.

(** X13. A history file that holds a JSON value other than an array is never
    repaired: it is read back as it is, every save fails and leaves it
    untouched, however many are tried. *)
Theorem save_price_data_not_a_list (v : json) (steps : list (write_fault * dict)) :
  (forall l, v <> JList l) ->
  get_price_history (JsonFile v) = v
  /\ (forall fault data,
        save_price_data fault (JsonFile v) data = (JsonFile v, false))
  /\ save_run steps (JsonFile v) = JsonFile v.
Proof.
  intros Hv. split; [done|]. split; [intros; by apply save_price_data_not_list|].
  induction steps as [|[fault data] steps IH]; [done|].
  unfold save_run. cbn [foldl fst snd]. by rewrite save_price_data_not_list.
Qed.

(** X14. A snapshot that lacks one of [timestamp], [buy_price],
    [sell_price], [spread] is not saved: the call returns [False] and the
    file stays as it was, fault or no fault. *)
Theorem save_price_data_missing_field
    (fault : write_fault) (fs : file_state) (data : dict) (key : string) :
  key ∈ ["timestamp"; "buy_price"; "sell_price"; "spread"] ->
  dict_lookup data key = None ->
  save_price_data fault fs data = (fs, false).
Proof.
  intros Hkey Hnone. unfold save_price_data, history_to_save.
  assert (exists e, new_data_point data = Raise e) as [e ->]; [|done].
  unfold new_data_point, dict_item.
  repeat (apply elem_of_cons in Hkey as [->|Hkey]);
    [| | | |by apply elem_of_nil in Hkey];
    repeat (match goal with
            | |- context [dict_lookup data ?k] =>
                first [rewrite Hnone | destruct (dict_lookup data k)]
            end; unfold_bind); by eexists.
Qed.

Section ComposeAndSave.

Variable fos : string -> option float.

(** X15. Every snapshot that [fetch_latest_binance_data] returns can be
    saved: it has the four fields, the point stored for it carries its
    timestamp, and saving it to a history that reads as a list succeeds
    unless a fault hits the write. *)
Theorem fetch_latest_binance_data_saves
    (w : world) (asset fiat : string) (n n' : nat) (data : dict) :
  fetch_latest_binance_data fos w asset fiat n = (Ok data, n') ->
  exists buy_price sell_price spread,
    new_data_point data
    = Ok (JDict [ ("timestamp", JStr (clock w (S (S n))));
                  ("buy_price", buy_price);
                  ("sell_price", sell_price);
                  ("spread", spread) ])
    /\ (forall fs old, get_price_history fs = JList old ->
          snd (save_price_data NoFault fs data) = true).
Proof.
  intros Hrun. apply fetch_latest_binance_data_inv in Hrun
    as (? & ? & ? & ? & ? & ? & avg_buy & avg_sell & spread
        & _ & _ & _ & _ & _ & _ & _ & _ & _ & _ & ->).
  exists avg_buy, avg_sell, spread. split; [reflexivity|].
  intros fs old Hold.
  match goal with
  | |- snd (save_price_data _ _ ?data) = _ =>
      assert (exists point, new_data_point data = Ok point) as [point Hpoint]
        by (by eexists)
  end.
  by rewrite (save_price_data_list fs _ old point Hold Hpoint).
Qed.

End ComposeAndSave.

(** ** The export as it runs *)

Section ExportAsItRuns.

Variable fos : string -> option float.
Variable py_repr : json -> string.
Variable strptime : string -> option Z.

(** X26. [save_price_data_as_excel] never returns a path: whatever the
    snapshot, the history, the period and the writer, it raises, with
    [UnboundLocalError] from its first use of [datetime] unless making the
    export directory has already failed with [OSError]. No workbook is
    written. *)
Theorem save_price_data_as_excel_never_returns
    (makedirs_raises : bool) (stamp : string) (now : Z) (excel : excel_outcome)
    (fs : file_state) (data : dict) (time_period : option string) :
  save_price_data_as_excel py_repr strptime makedirs_raises stamp now excel fs data
    time_period
  = Raise (if makedirs_raises then OSError else UnboundLocalError).
Proof. unfold save_price_data_as_excel. by destruct makedirs_raises. Qed.

(** X27. [/api/download-excel] never answers 200: whatever the marketplace
    sends and whatever period is asked for, the reply is 500, with the
    exception of the composer when composing the snapshot fails and that of
    the export otherwise. *)
Theorem download_excel_always_500
    (w : world) (makedirs_raises : bool) (stamp : string) (now : Z)
    (excel : excel_outcome) (fs : file_state) (args : list (string * string)) (n : nat) :
  let r := download_excel fos py_repr strptime w makedirs_raises stamp now excel fs
             args n in
  status_code r = 500
  /\ payload_of r
     = match fst (fetch_latest_binance_data fos w "USDT" "SDG" n) with
       | Raise e => Raise e
       | Ok _ => Raise (if makedirs_raises then OSError else UnboundLocalError)
       end.
Proof.
  cbn zeta. unfold download_excel, json_route, io_bind, lift, io_ret.
  destruct (fetch_latest_binance_data fos w "USDT" "SDG" n) as [[data|e] n'];
    cbn [fst]; [|done].
  unfold save_price_data_as_excel. by destruct makedirs_raises.
Qed.

End ExportAsItRuns.

(** The sample export, had line 90 passed: of the three stored points and the
    current one, the hour window would hold the point of 11:30, the current
    point and the point whose timestamp is no date. *)
Lemma bound_last_hour_window_sample :
  exists book,
    export_body repr_int strptime_padded Bound "20250101_120000" noon
      sample_history snapshot_noon (Some "hour") = Ok book
    /\ historical_data book
       = [ {| Timestamp := "2025-01-01 11:30:00"; Buy_Price := "600";
              Sell_Price := "610"; Spread := "10" |};
           {| Timestamp := "2025-01-01 12:00:00"; Buy_Price := "601";
              Sell_Price := "611"; Spread := "10" |};
           {| Timestamp := "yesterday"; Buy_Price := "600";
              Sell_Price := "610"; Spread := "10" |} ].
Proof. eexists. split; vm_compute; reflexivity. Qed.

(** ** The mail *)

(** X24. [send_price_history_email] returns [True] exactly when the history
    file decodes to a value that is not empty and the mail goes out; it then
    has sent one message, to the recipient alone, with what the file holds
    attached, and has read the clock twice. In every other case, a missing
    file, one that does not decode, an empty history, it returns [False] and
    sends nothing. *)
Theorem send_price_history_email_sends
    (w : world) (stamp : nat -> string) (send_raises : bool)
    (fs : file_state) (recipient : string) (sent : list message) (n : nat) :
  let run := send_price_history_email w stamp send_raises fs recipient sent n in
  let ok := fst (fst run) in
  let sent' := snd (fst run) in
  (ok = true <-> send_raises = false /\ exists v, fs = JsonFile v /\ py_truthy v = true)
  /\ (ok = true ->
        exists msg, sent' = sent ++ [msg]
                    /\ recipients msg = [recipient]
                    /\ attachment msg = get_price_history fs
                    /\ content_type msg = "application/json"
                    /\ snd run = S (S n))
  /\ (ok = false -> sent' = sent).
Proof.
  cbn zeta. unfold send_price_history_email.
  destruct fs as [|v| |]; cbn [path_exists negb load_json fst snd].
  - split; [split; [done|by intros [_ (v & ? & _)]]|]. split; done.
  - destruct (py_truthy v) eqn:Hv; cbn [negb fst snd].
    + destruct send_raises; cbn [fst snd].
      * split; [split; [done|by intros [? _]]|]. split; done.
      * split; [split; [intros _; split; [done|by exists v]|done]|].
        split; [|done]. intros _. by eexists.
    + split; [split; [done|intros [_ (v' & [= <-] & Hv')]; congruence]|].
      split; done.
  - split; [split; [done|by intros [_ (v & ? & _)]]|]. split; done.
  - split; [split; [done|by intros [_ (v & ? & _)]]|]. split; done.
Qed.

(** X25. After a save that returned [True] the mail can always be sent: if
    [mail.send] does not raise, the call returns [True] and the attachment
    is the stored history, the saved point last. *)
Theorem email_after_save
    (w : world) (stamp : nat -> string) (fault : write_fault) (fs : file_state)
    (data : dict) (recipient : string) (sent : list message) (n : nat) :
  snd (save_price_data fault fs data) = true ->
  let fs' := fst (save_price_data fault fs data) in
  let run := send_price_history_email w stamp false fs' recipient sent n in
  fst (fst run) = true
  /\ exists stored point msg,
       snd (fst run) = sent ++ [msg]
       /\ attachment msg = JList stored
       /\ new_data_point data = Ok point
       /\ last stored = Some point.
Proof.
  intros Hok. cbn zeta.
  apply save_price_data_success in Hok as (old & point & _ & Hpoint & _ & ->).
  unfold send_price_history_email. cbn [path_exists negb load_json].
  assert (py_truthy (JList (drop (length old - 167)%nat old ++ [point])) = true) as ->
    by (cbn; by destruct (drop _ old)).
  cbn [negb fst snd]. split; [done|].
  eexists _, point, _. split; [done|]. split; [done|]. split; [done|]. apply last_snoc.
Qed.

(** ** These properties at concrete inputs *)

Lemma filter_offers_sublist_idempotent_witness :
  let small := listing (JInt 605) (JInt 10) "user" in
  filter_offers float_of_digits (small :: scenario_listings) = Ok scenario_listings
  /\ offer_passes float_of_digits small = Ok false
  /\ filter_offers float_of_digits scenario_listings = Ok scenario_listings.
Proof.
  cbn zeta.
  assert (filter_offers float_of_digits
            (listing (JInt 605) (JInt 10) "user" :: scenario_listings)
          = Ok scenario_listings) as Hrun by reflexivity.
  destruct (filter_offers_sublist_idempotent float_of_digits _ _ Hrun)
    as (_ & _ & Hout & Hagain).
  split; [exact Hrun|]. split; [|exact Hagain].
  apply Hout; [apply list_elem_of_here|].
  intros Hin. apply list_elem_of_In in Hin. cbn in Hin.
  destruct Hin as [Hin|[Hin|[]]]; discriminate Hin.
Defined.

Lemma calculate_average_price_raises_witness :
  Forall (fun o => is_ok (offer_price float_of_digits o) = true) scenario_listings
  /\ offer_price float_of_digits JNull = Raise AttributeError
  /\ calculate_average_price float_of_digits (scenario_listings ++ [JNull])
     = Raise AttributeError.
Proof.
  assert (Forall (fun o => is_ok (offer_price float_of_digits o) = true)
            scenario_listings) as Hall by (repeat constructor).
  split; [exact Hall|]. split; [reflexivity|].
  apply (calculate_average_price_raises float_of_digits scenario_listings [] JNull
           AttributeError Hall eq_refl).
Defined.

Lemma fetch_latest_binance_data_events_witness :
  fst (fetch_binance_p2p_data world_btc_down "BTC" "SDG" "BUY" 20 0%nat)
  = Raise ConnectionError
  /\ fetch_latest_binance_data float_of_digits world_btc_down "BTC" "SDG" 0%nat
     = (Raise ConnectionError, 1%nat)
  /\ snd (fetch_latest_binance_data float_of_digits world_btc_down "USDT" "SDG" 0%nat)
     = 3%nat.
Proof.
  split; [reflexivity|].
  destruct (fetch_latest_binance_data_events float_of_digits world_btc_down
              "BTC" "SDG" 0%nat) as (Hbuy & _).
  destruct (fetch_latest_binance_data_events float_of_digits world_btc_down
              "USDT" "SDG" 0%nat) as (_ & _ & _ & Hok).
  split; [apply Hbuy; reflexivity|].
  eapply Hok. reflexivity.
Defined.

Lemma fetch_latest_binance_data_snapshot_witness :
  exists data,
    fetch_latest_binance_data float_of_digits world_not_modified "USDT" "SDG" 0%nat
    = (Ok data, 3%nat)
    /\ side_well_formed float_of_digits data scenario_listings
         "buy_price" "buy_offers_count" "buy_offers"
    /\ dict_lookup data "buy_offers_count" = Some (JInt 2)
    /\ dict_lookup data "buy_price" = Some (JFloat 605%float).
Proof.
  eexists. split; [reflexivity|].
  destruct (fetch_latest_binance_data_snapshot float_of_digits world_not_modified
              "USDT" "SDG" 0%nat 3%nat _ eq_refl)
    as (buy_offers & ? & buy_listings & ? & Hbuy & _ & Hiter & _ & Hside & _).
  injection Hbuy as <-. injection Hiter as <-.
  split; [exact Hside|]. split; reflexivity.
Defined.

Lemma fetch_latest_binance_data_empty_witness :
  fst (fetch_binance_p2p_data world_without_data "USDT" "SDG" "BUY" 20 0%nat)
  = Ok (JList [])
  /\ fetch_latest_binance_data float_of_digits world_without_data "USDT" "SDG" 0%nat
     = (Ok (empty_data "2025-01-01 12:00:00" "USDT" "SDG"), 3%nat).
Proof.
  split; [reflexivity|].
  apply (fetch_latest_binance_data_empty float_of_digits world_without_data
           "USDT" "SDG" 0%nat eq_refl eq_refl).
Defined.

Lemma fetch_data_statuses_witness :
  http world_not_modified 0%nat (search_payload "USDT" "SDG" "BUY" 20)
  = Response 304 (Some (JDict [ ("data", JList scenario_listings) ]))
  /\ fetch_data world_not_modified (search_payload "USDT" "SDG" "BUY" 20) 0%nat
     = (Ok (JList []), 1%nat)
  /\ fetch_binance_p2p_data world_not_modified "USDT" "SDG" "BUY" 20 0%nat
     = (Ok (JList scenario_listings), 1%nat).
Proof.
  split; [reflexivity|]. split; [|reflexivity].
  destruct (fetch_data_statuses world_not_modified "USDT" "SDG" "BUY" 20 0%nat
              304 _ eq_refl) as (Hother & _ & _).
  apply Hother. discriminate.
Defined.

Lemma save_price_data_round_trip_witness :
  snd (save_price_data NoFault (JsonFile (JList [point_at 0])) (snapshot_at 1)) = true
  /\ get_price_history
       (fst (save_price_data NoFault (JsonFile (JList [point_at 0])) (snapshot_at 1)))
     = JList [point_at 0; point_at 1].
Proof.
  split; [reflexivity|].
  destruct (save_price_data_round_trip NoFault (JsonFile (JList [point_at 0]))
              (snapshot_at 1) eq_refl)
    as (old & point & stored & Hold & Hpoint & -> & -> & _).
  injection Hold as <-. injection Hpoint as <-. reflexivity.
Defined.

Lemma save_run_bounded_witness :
  let steps := [ (NoFault, snapshot_at 1);
                 (DumpFault OSError, snapshot_at 2);
                 (OpenFault, snapshot_at 3);
                 (NoFault, snapshot_without_spread) ] in
  bounded NoFile /\ bounded (save_run steps NoFile).
Proof.
  cbn zeta. assert (bounded NoFile) as Hstart by (cbn; lia).
  split; [exact Hstart|].
  apply (save_run_bounded _ NoFile Hstart).
Defined.

Lemma save_price_data_not_a_list_witness :
  (forall l, JDict [] <> JList l)
  /\ save_price_data NoFault (JsonFile (JDict [])) (snapshot_at 1)
     = (JsonFile (JDict []), false)
  /\ save_run [ (NoFault, snapshot_at 1); (NoFault, snapshot_at 2) ] (JsonFile (JDict []))
     = JsonFile (JDict []).
Proof.
  assert (forall l, JDict [] <> JList l) as Hv by discriminate.
  split; [exact Hv|].
  destruct (save_price_data_not_a_list (JDict [])
              [ (NoFault, snapshot_at 1); (NoFault, snapshot_at 2) ] Hv)
    as (_ & Hsave & Hrun).
  split; [apply Hsave|exact Hrun].
Defined.

Lemma save_price_data_missing_field_witness :
  "spread" ∈ ["timestamp"; "buy_price"; "sell_price"; "spread"]
  /\ dict_lookup snapshot_without_spread "spread" = None
  /\ save_price_data NoFault sample_history snapshot_without_spread
     = (sample_history, false).
Proof.
  assert ("spread" ∈ ["timestamp"; "buy_price"; "sell_price"; "spread"]) as Hkey
    by (repeat constructor).
  split; [exact Hkey|]. split; [reflexivity|].
  apply (save_price_data_missing_field NoFault sample_history snapshot_without_spread
           "spread" Hkey eq_refl).
Defined.

Lemma fetch_latest_binance_data_saves_witness :
  exists data,
    fetch_latest_binance_data float_of_digits world_not_modified "USDT" "SDG" 0%nat
    = (Ok data, 3%nat)
    /\ snd (save_price_data NoFault NoFile data) = true.
Proof.
  eexists. split; [reflexivity|].
  destruct (fetch_latest_binance_data_saves float_of_digits world_not_modified
              "USDT" "SDG" 0%nat 3%nat _ eq_refl) as (? & ? & ? & _ & Hsave).
  apply (Hsave NoFile [] eq_refl).
Defined.

Lemma email_after_save_witness :
  snd (save_price_data NoFault NoFile (snapshot_at 1)) = true
  /\ fst (fst (send_price_history_email world_btc_down stamp_noon false
                 (fst (save_price_data NoFault NoFile (snapshot_at 1)))
                 "ops@example.org" [] 0%nat)) = true
  /\ fst (fst (send_price_history_email world_btc_down stamp_noon false NoFile
                 "ops@example.org" [] 0%nat)) = false.
Proof.
  split; [reflexivity|].
  destruct (email_after_save world_btc_down stamp_noon NoFault NoFile (snapshot_at 1)
              "ops@example.org" [] 0%nat eq_refl) as [Hsent _].
  split; [exact Hsent|reflexivity].
Defined.
